(** * Face landmarks: capture, dispatch and reporting helpers

    A shallow embedding of [react/features/face-landmarks/functions.ts]
    and the properties of its functions.

    JavaScript numbers are IEEE 754 binary64 values, modelled by Rocq's
    primitive floats; strings are [string]; objects used as maps are
    [gmap]s; [undefined] is [None].

    The functions run in a monad that threads the clock and the
    module-level canvas, collects the calls that leave the module (the
    conference, the worker, the image capture, [fetch], [Date.now], the
    logger) and ends in a returned value or a thrown one.  An [async]
    function is the same computation: a rejected promise is a throw, and an
    [await] is the call it waits for.  No function calls a collaborator
    twice, so a collaborator is given by what its method does when called:
    return or throw, after some time. *)

From Stdlib Require Import ZArith QArith Qabs Qround String Ascii List Floats DecimalString Lia.
From stdpp Require Import base strings gmap.

(** ** The JavaScript runtime operations the module relies on *)

Module JS.

(** [ToBoolean], as an interface over the types of values the module
    tests for truthiness. *)
Class Truthy (A : Type) := ToBoolean : A -> bool.

(** Numbers: [+0], [-0] and [NaN] are falsy. *)
#[export] Instance number_truthy : Truthy float := fun x =>
  match classify x with
  | PZero | NZero | NaN => false
  | _ => true
  end.

(** Strings: only the empty string is falsy. *)
#[export] Instance string_truthy : Truthy string := fun s =>
  match s with
  | EmptyString => false
  | String _ _ => true
  end.

(** A possibly [undefined] value is truthy when it is defined and truthy. *)
#[export] Instance undefined_truthy {A} `{Truthy A} : Truthy (option A) := fun o =>
  match o with
  | Some a => ToBoolean a
  | None => false
  end.

(** [a || b] where [b] is always defined. *)
Definition or_else {A} `{Truthy A} (a : option A) (b : A) : A :=
  match a with
  | Some x => if ToBoolean x then x else b
  | None => b
  end.

(** [Math.max(...values)] (ECMA-262, 21.3.2.24). *)
Definition Math_max_step (highest number : float) : float :=
  match classify number, classify highest with
  | PZero, NZero => number
  | _, _ => if PrimFloat.ltb highest number then number else highest
  end.

Fixpoint Math_max_from (highest : float) (coerced : list float) : float :=
  match coerced with
  | [] => highest
  | number :: rest =>
      if is_nan number then nan else Math_max_from (Math_max_step highest number) rest
  end.

Definition Math_max (values : list float) : float :=
  Math_max_from neg_infinity values.

(** *** [Number::toString] (ECMA-262, 6.1.6.1.20), radix 10

    A finite non-zero number [x] prints as the digits of the integer [s]
    placed by the decimal exponent [n], where [s] has [k] digits,
    [s * 10^(n-k)] rounds to [x], [k] is as small as possible and,
    among the remaining choices, [s * 10^(n-k)] is closest to [x]. *)

(** [m * b^e] as an exact rational. *)
Definition scaled (m b e : Z) : Q :=
  if (0 <=? e)%Z then inject_Z (m * b ^ e) else Qmake m (Z.to_pos (b ^ (- e))).

Definition Qltb (a b : Q) : bool := (Qnum a * QDen b <? Qnum b * QDen a)%Z.

(** The reals that round (to nearest, ties to even) to the binary64
    value [m * 2^e]: the interval between the midpoints to its two
    neighbours, closed when [m] is even. *)
Record interval := { lower : Q; upper : Q; closed : bool }.

Definition rounding_interval (m e : Z) : interval :=
  {| lower := if ((m =? 2 ^ 52) && (-1074 <? e))%Z
              then scaled (4 * m - 1) 2 (e - 2)
              else scaled (2 * m - 1) 2 (e - 1);
     upper := scaled (2 * m + 1) 2 (e - 1);
     closed := Z.even m |}.

Definition rounds_to (i : interval) (c : Q) : bool :=
  if closed i then Qle_bool (lower i) c && Qle_bool c (upper i)
  else Qltb (lower i) c && Qltb c (upper i).

(** The [n] with [10^(n-1) <= m * 2^e < 10^n]. *)
Definition decimal_exponent (m e : Z) : Z :=
  let v := scaled m 2 e in
  let n0 := ((e + Z.log2 m) * 30103 / 100000 + 1)%Z in
  if Qle_bool (scaled 1 10 n0) v then (n0 + 1)%Z
  else if Qltb v (scaled 1 10 (n0 - 1)) then (n0 - 1)%Z
  else n0.

(** The [k]-digit candidates [(s, n')] around [v] that round to it. *)
Definition candidates (i : interval) (v : Q) (n k : Z) : list (Z * Z) :=
  let at_exp n' :=
    let q := (n' - k)%Z in
    let s0 := Qfloor (v / scaled 1 10 q) in
    List.filter (fun sn : Z * Z =>
              ((10 ^ (k - 1) <=? fst sn) && (fst sn <? 10 ^ k))%Z
              && rounds_to i (scaled (fst sn) 10 q))
           [(s0, n'); ((s0 + 1)%Z, n')] in
  at_exp n ++ at_exp (n + 1)%Z.

Definition closer (v : Q) (k : Z) (a b : Z * Z) : Z * Z :=
  let da := Qabs (scaled (fst a) 10 (snd a - k) - v) in
  let db := Qabs (scaled (fst b) 10 (snd b - k) - v) in
  if Qltb db da then b
  else if Qltb da db then a
  else if Z.even (fst a) then a else b.

(** Try [k], [k+1], ... digits; seventeen always suffice for binary64. *)
Fixpoint shortest (fuel : nat) (i : interval) (v : Q) (n k : Z) : Z * Z * Z :=
  match fuel with
  | O => (Qfloor (v / scaled 1 10 (n - k)), n, k)
  | S fuel' =>
      match candidates i v n k with
      | [] => shortest fuel' i v n (k + 1)%Z
      | c :: cs => let best := fold_left (closer v k) cs c in (fst best, snd best, k)
      end
  end.

Definition decimal (z : Z) : string := NilZero.string_of_uint (N.to_uint (Z.to_N z)).

Fixpoint zeros (n : nat) : string :=
  match n with
  | O => EmptyString
  | S n' => String "0" (zeros n')
  end.

Definition first_chars (n : nat) (s : string) : string := String.substring 0 n s.
Definition after_chars (n : nat) (s : string) : string :=
  String.substring n (String.length s - n) s.

Definition format_finite (s n k : Z) : string :=
  let digits := decimal s in
  if ((k <=? n) && (n <=? 21))%Z then
    digits +:+ zeros (Z.to_nat (n - k))
  else if ((0 <? n) && (n <=? 21))%Z then
    first_chars (Z.to_nat n) digits +:+ "." +:+ after_chars (Z.to_nat n) digits
  else if ((-6 <? n) && (n <=? 0))%Z then
    "0." +:+ zeros (Z.to_nat (- n)) +:+ digits
  else
    let e := (n - 1)%Z in
    let sign := if (e <? 0)%Z then "-" else "+" in
    if (k =? 1)%Z then digits +:+ "e" +:+ sign +:+ decimal (Z.abs e)
    else first_chars 1 digits +:+ "." +:+ after_chars 1 digits
         +:+ "e" +:+ sign +:+ decimal (Z.abs e).

Definition NumberToString (x : float) : string :=
  match Prim2SF x with
  | S754_nan => "NaN"
  | S754_zero _ => "0"
  | S754_infinity neg => if neg then "-Infinity" else "Infinity"
  | S754_finite neg m e =>
      let '(s, n, k) := shortest 17 (rounding_interval (Zpos m) e) (scaled (Zpos m) 2 e)
                                 (decimal_exponent (Zpos m) e) 1 in
      (if neg then "-" else "") +:+ format_finite s n k
  end.

End JS.

Import JS.

(** ** Values exchanged with the collaborators *)

(** A value that may be [null] or [undefined] (an [any] handle, a nullable
    argument). *)
Inductive Nullable (A : Type) : Type :=
| null
| undefined
| object (a : A).
Arguments null {A}.
Arguments undefined {A}.
Arguments object {A} _.

(** A thrown value. *)
Record Exn := { exn_name : string; exn_message : string }.

Definition TypeError (message : string) : Exn :=
  {| exn_name := "TypeError"; exn_message := message |}.

(** How a call ends: it returns a value or throws. *)
Inductive Outcome (A : Type) : Type :=
| Returned (a : A)
| Thrown (e : Exn).
Arguments Returned {A} _.
Arguments Thrown {A} _.

(** What a call into a collaborator does: how it ends, and the
    milliseconds that pass meanwhile. *)
Record Reply (A : Type) := { ends : Outcome A; elapsed : N }.
Arguments ends {A} _.
Arguments elapsed {A} _.

(** Modelled from the spec: the [FaceBox] type of [./types], which is not
    among the sources.  A face box holds percentage offsets relative to the
    video frame; the module reads [right] and [width], either of which may
    be missing. *)
Record FaceBox := { right : option float; width : option float }.

(** The payloads of [conference.sendEndpointMessage]. *)
Inductive EndpointMessage :=
| FaceLandmarkMessage (type : string) (faceExpression : string) (duration : float)
| FaceBoxMessage (type : string) (faceBox : FaceBox).

(** The payload of [conference.sendFaceLandmarks]. *)
Record FaceLandmarksPayload := { fl_faceExpression : string; fl_duration : float }.

(** The conference: [sessionId] is read by the webhook, the two send
    primitives by the broadcasts.  The broadcasts take the conference as
    [any], so a primitive may be missing. *)
Record JitsiConference := {
  sessionId : option string;
  sendEndpointMessage : option (string -> EndpointMessage -> Reply unit);
  sendFaceLandmarks : option (FaceLandmarksPayload -> Reply unit)
}.

(** The connection, of which [getJid()], an accessor, is called. *)
Record JitsiConnection := { getJid : unit -> string }.

(** The local participant, of which [jwtId] and [name] are read. *)
Record ILocalParticipant := { jwtId : option string; name : option string }.

(** An [ImageBitmap]: its dimensions, which are never zero, and the frame
    it holds. *)
Record ImageBitmap := { bitmap_width : positive; bitmap_height : positive; bitmap_frame : nat }.

(** The module's canvas: its dimensions and what was drawn at its origin
    since it was last cleared (latest first). *)
Record HTMLCanvasElement := {
  canvas_width : N;
  canvas_height : N;
  canvas_drawn : list ImageBitmap
}.

(** A 2D context of the module's canvas. *)
Inductive CanvasRenderingContext2D := Context2D.

(** The rectangle [getImageData(0, 0, sw, sh)] reads from the canvas. *)
Record ImageData := {
  imagedata_width : positive;
  imagedata_height : positive;
  imagedata_drawn : list ImageBitmap
}.

(** The [image] of a detection request. *)
Inductive Image :=
| image_undefined
| image_data (data : ImageData)
| image_bitmap (bitmap : ImageBitmap).

Record WorkerMessage := { msg_type : string; msg_image : Image; msg_threshold : float }.

Record Worker := { postMessage : WorkerMessage -> Reply unit }.

Record ImageCapture := { grabFrame : Reply ImageBitmap }.

(** The body of the webhook request, over the type [E] of the entries of
    the expression buffer (declared in the feature's reducer, which is not
    among the sources). *)
Record ReqBody (E : Type) := {
  meetingFqn : string;
  body_sessionId : option string;
  submitted : Z;
  emotions : list E;
  participantId : option string;
  participantName : option string;
  participantJid : option string
}.
Arguments meetingFqn {E} _.
Arguments body_sessionId {E} _.
Arguments submitted {E} _.
Arguments emotions {E} _.
Arguments participantId {E} _.
Arguments participantName {E} _.
Arguments participantJid {E} _.

(** The text [JSON.stringify(value)], kept as the value it serialises; the
    body is plain data, whose serialisation does not fail. *)
Inductive JSONText (E : Type) : Type := JSON_stringify (value : ReqBody E).
Arguments JSON_stringify {E} _.

Record RequestInit (E : Type) := {
  method : string;
  headers : gmap string string;
  body : JSONText E
}.
Arguments method {E} _.
Arguments headers {E} _.
Arguments body {E} _.

(** A [Response]: [ok] holds for the statuses 200 to 299 (Fetch standard). *)
Record Response := { status : Z }.

Definition ok (res : Response) : bool :=
  ((200 <=? status res) && (status res <=? 299))%Z.

(** ** The redux state *)

Record IFaceLandmarksConfig := { captureInterval : option float }.

Record IConfig := {
  webhookProxyUrl : option string;
  faceLandmarks : option IFaceLandmarksConfig
}.

Record IFaceLandmarksState (E : Type) := {
  faceExpressionsBuffer : list E;
  faceBoxes : gmap string FaceBox
}.
Arguments faceExpressionsBuffer {E} _.
Arguments faceBoxes {E} _.

(** The slices of the state the module reads, named after their keys
    ['features/base/config'], ['features/base/conference'],
    ['features/base/jwt'], ['features/base/connection'] and
    ['features/face-landmarks']. *)
Record IConferenceState := { conference : option JitsiConference }.

Record IJwtState := { jwt : option string }.

Record IConnectionState := { connection : option JitsiConnection }.

Record IState (E : Type) := {
  features_base_config : IConfig;
  features_base_conference : IConferenceState;
  features_base_jwt : IJwtState;
  features_base_connection : IConnectionState;
  features_face_landmarks : IFaceLandmarksState E
}.
Arguments features_base_config {E} _.
Arguments features_base_conference {E} _.
Arguments features_base_jwt {E} _.
Arguments features_base_connection {E} _.
Arguments features_face_landmarks {E} _.

(** ** Effects *)

Inductive LogArg :=
| LogString (s : string)
| LogError (e : Exn)
| LogNumber (n : Z).

(** The calls that leave the module, in the order they are made. *)
Inductive Event (E : Type) : Type :=
| logger_warn (args : list LogArg)
| logger_error (args : list LogArg)
| conference_sendEndpointMessage (to : string) (payload : EndpointMessage)
| conference_sendFaceLandmarks (payload : FaceLandmarksPayload)
| imageCapture_grabFrame
| worker_postMessage (message : WorkerMessage)
| imageBitmap_close (bitmap : ImageBitmap)
| Date_now
| window_fetch (input : string) (init : RequestInit E).
Arguments logger_warn {E} _.
Arguments logger_error {E} _.
Arguments conference_sendEndpointMessage {E} _ _.
Arguments conference_sendFaceLandmarks {E} _.
Arguments imageCapture_grabFrame {E}.
Arguments worker_postMessage {E} _.
Arguments imageBitmap_close {E} _.
Arguments Date_now {E}.
Arguments window_fetch {E} _ _.

(** What the module's code can change or observe besides its arguments:
    the clock, whether the platform has [OffscreenCanvas], and the
    module-level [canvas] and [context]. *)
Record World := {
  clock : Z;
  OffscreenCanvas : bool;
  canvas : option HTMLCanvasElement;
  context : Nullable CanvasRenderingContext2D
}.

(** The result of running a piece of code: how it ended, the calls it
    made, and the world it left. *)
Record Run (E A : Type) := {
  outcome : Outcome A;
  events : list (Event E);
  world : World
}.
Arguments outcome {E A} _.
Arguments events {E A} _.
Arguments world {E A} _.

Definition M (E A : Type) : Type := World -> Run E A.

Definition ret {E A} (a : A) : M E A := fun w =>
  {| outcome := Returned a; events := []; world := w |}.

Definition throw {E A} (e : Exn) : M E A := fun w =>
  {| outcome := Thrown e; events := []; world := w |}.

(** Sequencing: a throw skips what follows. *)
Definition bind {E A B} (m : M E A) (k : A -> M E B) : M E B := fun w =>
  let r := m w in
  match outcome r with
  | Returned a =>
      let r' := k a (world r) in
      {| outcome := outcome r'; events := events r ++ events r'; world := world r' |}
  | Thrown e => {| outcome := Thrown e; events := events r; world := world r |}
  end.

(** [try { block } catch (err) { handler }]. *)
Definition try_catch {E A} (block : M E A) (handler : Exn -> M E A) : M E A := fun w =>
  let r := block w in
  match outcome r with
  | Returned _ => r
  | Thrown err =>
      let r' := handler err (world r) in
      {| outcome := outcome r'; events := events r ++ events r'; world := world r' |}
  end.

Declare Scope js_scope.
Delimit Scope js_scope with js.
Notation "x <- m ;; k" := (bind m (fun x => k))
  (at level 100, m at next level, right associativity) : js_scope.
Notation "m ;; k" := (bind m (fun _ => k))
  (at level 100, right associativity) : js_scope.
Open Scope js_scope.

(** A call that only leaves a trace (the logger, [close()]). *)
Definition emit {E} (ev : Event E) : M E unit := fun w =>
  {| outcome := Returned tt; events := [ev]; world := w |}.

Definition advance (ms : N) (w : World) : World :=
  {| clock := clock w + Z.of_N ms;
     OffscreenCanvas := OffscreenCanvas w;
     canvas := canvas w;
     context := context w |}.

(** A call into a collaborator, awaited when it is asynchronous: it is
    recorded, takes its time, and returns or throws as the collaborator
    decides. *)
Definition call {E A} (ev : Event E) (reply : Reply A) : M E A := fun w =>
  {| outcome := ends reply; events := [ev]; world := advance (elapsed reply) w |}.

(** [Date.now()]. *)
Definition now {E} : M E Z := fun w =>
  {| outcome := Returned (clock w); events := [Date_now]; world := w |}.

Definition with_canvas (c : HTMLCanvasElement) (w : World) : World :=
  {| clock := clock w;
     OffscreenCanvas := OffscreenCanvas w;
     canvas := Some c;
     context := context w |}.

(** [typeof OffscreenCanvas === 'undefined']. *)
Definition OffscreenCanvas_undefined {E} : M E bool := fun w =>
  {| outcome := Returned (negb (OffscreenCanvas w)); events := []; world := w |}.

(** [canvas.width = value]: throws when [canvas] was never assigned;
    setting a dimension clears the canvas. *)
Definition set_canvas_width {E} (value : positive) : M E unit := fun w =>
  match canvas w with
  | Some c =>
      ret tt (with_canvas {| canvas_width := Npos value;
                             canvas_height := canvas_height c;
                             canvas_drawn := [] |} w)
  | None => throw (TypeError "canvas is undefined") w
  end.

(** [canvas.height = value]. *)
Definition set_canvas_height {E} (value : positive) : M E unit := fun w =>
  match canvas w with
  | Some c =>
      ret tt (with_canvas {| canvas_width := canvas_width c;
                             canvas_height := Npos value;
                             canvas_drawn := [] |} w)
  | None => throw (TypeError "canvas is undefined") w
  end.

(** [context?.drawImage(bitmap, 0, 0)]. *)
Definition context_drawImage {E} (bitmap : ImageBitmap) : M E unit := fun w =>
  match context w, canvas w with
  | object _, Some c =>
      ret tt (with_canvas {| canvas_width := canvas_width c;
                             canvas_height := canvas_height c;
                             canvas_drawn := bitmap :: canvas_drawn c |} w)
  | _, _ => ret tt w
  end.

(** [context?.getImageData(0, 0, sw, sh)]. *)
Definition context_getImageData {E} (sw sh : positive) : M E Image := fun w =>
  match context w with
  | object _ =>
      ret (image_data {| imagedata_width := sw;
                         imagedata_height := sh;
                         imagedata_drawn := from_option canvas_drawn [] (canvas w) |}) w
  | _ => ret image_undefined w
  end.

(** The module's top-level statements: on a platform without
    [OffscreenCanvas] the canvas is created and asked for a 2D context,
    which it may refuse ([null]); otherwise both stay unassigned. *)
Definition module_init (offscreen : bool) (getContext : option CanvasRenderingContext2D)
    (time : Z) : World :=
  if offscreen
  then {| clock := time; OffscreenCanvas := true; canvas := None; context := undefined |}
  else {| clock := time; OffscreenCanvas := false;
          canvas := Some {| canvas_width := 300; canvas_height := 150; canvas_drawn := [] |};
          context := match getContext with Some c => object c | None => null end |}.

(** The canvas is in place whenever the fallback path needs it, as it is
    after [module_init]. *)
Definition canvas_ready (w : World) : Prop :=
  OffscreenCanvas w = true \/ is_Some (canvas w).

(** ** The functions of [functions.ts] *)

Section Model.

Context {E : Type}.

(** The constants of [./constants], which is not among the sources. *)
Variable DETECT_FACE : string.
Variable FACE_BOX_EVENT_TYPE : string.
Variable SEND_IMAGE_INTERVAL_MS : float.

(** The selectors of other features and the platform's [fetch]. *)
Variable getLocalParticipant : IState E -> option ILocalParticipant.
Variable extractFqnFromPath : unit -> string.
Variable fetch : string -> RequestInit E -> Reply Response.

(** [conference.sendEndpointMessage(to, payload)] on an [any] handle. *)
Definition conference_call_sendEndpointMessage (conference : Nullable JitsiConference)
    (to : string) (payload : EndpointMessage) : M E unit :=
  match conference with
  | object c =>
      match sendEndpointMessage c with
      | Some send => call (conference_sendEndpointMessage to payload) (send to payload)
      | None => throw (TypeError "conference.sendEndpointMessage is not a function")
      end
  | _ => throw (TypeError "conference is null or undefined")
  end.

(** [conference.sendFaceLandmarks(payload)] on an [any] handle. *)
Definition conference_call_sendFaceLandmarks (conference : Nullable JitsiConference)
    (payload : FaceLandmarksPayload) : M E unit :=
  match conference with
  | object c =>
      match sendFaceLandmarks c with
      | Some send => call (conference_sendFaceLandmarks payload) (send payload)
      | None => throw (TypeError "conference.sendFaceLandmarks is not a function")
      end
  | _ => throw (TypeError "conference is null or undefined")
  end.

Definition sendFaceExpressionToParticipants (conference : Nullable JitsiConference)
    (faceExpression : string) (duration : float) : M E unit :=
  try_catch
    (conference_call_sendEndpointMessage conference ""
       (FaceLandmarkMessage "face_landmark" faceExpression duration))
    (fun err =>
       emit (logger_warn
               [LogString "Could not broadcast the face expression to the other participants";
                LogError err])).

Definition sendFaceBoxToParticipants (conference : Nullable JitsiConference)
    (faceBox : FaceBox) : M E unit :=
  try_catch
    (conference_call_sendEndpointMessage conference ""
       (FaceBoxMessage FACE_BOX_EVENT_TYPE faceBox))
    (fun err =>
       emit (logger_warn
               [LogString "Could not broadcast the face box to the other participants";
                LogError err])).

Definition sendFaceExpressionToServer (conference : Nullable JitsiConference)
    (faceExpression : string) (duration : float) : M E unit :=
  try_catch
    (conference_call_sendFaceLandmarks conference
       {| fl_faceExpression := faceExpression; fl_duration := duration |})
    (fun err =>
       emit (logger_warn
               [LogString "Could not send the face expression to xmpp server";
                LogError err])).

(** The [headers] object of the webhook request. *)
Definition webhook_headers (jwt : option string) : gmap string string :=
  <["Content-Type" := "application/json"]>
    match jwt with
    | Some token =>
        if ToBoolean token then {["Authorization" := "Bearer " +:+ token]} else ∅
    | None => ∅
    end.

Definition sendFaceExpressionsWebhook (state : IState E) : M E bool :=
  let url := webhookProxyUrl (features_base_config state) in
  let conference := conference (features_base_conference state) in
  let jwt := jwt (features_base_jwt state) in
  let connection := connection (features_base_connection state) in
  let jid := (fun c => getJid c tt) <$> connection in
  let localParticipant := getLocalParticipant state in
  let faceExpressionsBuffer := faceExpressionsBuffer (features_face_landmarks state) in
  if (length faceExpressionsBuffer =? 0)%nat then ret false
  else
    let headers := webhook_headers jwt in
    let fqn := extractFqnFromPath tt in
    time <- now ;;
    let reqBody :=
      {| meetingFqn := fqn;
         body_sessionId := conference ≫= sessionId;
         submitted := time;
         emotions := faceExpressionsBuffer;
         participantId := localParticipant ≫= jwtId;
         participantName := localParticipant ≫= name;
         participantJid := jid |} in
    match url with
    | Some base =>
        if ToBoolean base then
          try_catch
            (let init := {| method := "POST"; headers := headers;
                            body := JSON_stringify reqBody |} in
             res <- call (window_fetch (base +:+ "/emotions") init)
                         (fetch (base +:+ "/emotions") init) ;;
             if ok res then ret true
             else emit (logger_error [LogString "Status error:"; LogNumber (status res)]) ;;
                  ret false)
            (fun err =>
               emit (logger_error [LogString "Could not send request"; LogError err]) ;;
               ret false)
        else ret false
    | None => ret false
    end.

(** The request the webhook issues for a state, at a given time. *)
Definition webhook_request (state : IState E) (time : Z) : RequestInit E :=
  {| method := "POST";
     headers := webhook_headers (jwt (features_base_jwt state));
     body := JSON_stringify
               {| meetingFqn := extractFqnFromPath tt;
                  body_sessionId := conference (features_base_conference state) ≫= sessionId;
                  submitted := time;
                  emotions := faceExpressionsBuffer (features_face_landmarks state);
                  participantId := getLocalParticipant state ≫= jwtId;
                  participantName := getLocalParticipant state ≫= name;
                  participantJid :=
                    (fun c => getJid c tt)
                      <$> connection (features_base_connection state) |} |}.

Definition sendDataToWorker (worker : Worker) (imageCapture : Nullable ImageCapture)
    (threshold : option float) : M E bool :=
  let threshold := default 10%float threshold in
  match imageCapture with
  | null | undefined => ret false
  | object imageCapture =>
      grabbed <- try_catch
                   (imageBitmap <- call imageCapture_grabFrame (grabFrame imageCapture) ;;
                    ret (Some imageBitmap))
                   (fun err => emit (logger_warn [LogError err]) ;; ret None) ;;
      match grabbed with
      | None => ret false
      | Some imageBitmap =>
          fallback <- OffscreenCanvas_undefined ;;
          image <- (if fallback then
                      set_canvas_width (bitmap_width imageBitmap) ;;
                      set_canvas_height (bitmap_height imageBitmap) ;;
                      context_drawImage imageBitmap ;;
                      context_getImageData (bitmap_width imageBitmap)
                                           (bitmap_height imageBitmap)
                    else ret (image_bitmap imageBitmap)) ;;
          let message := {| msg_type := DETECT_FACE; msg_image := image;
                            msg_threshold := threshold |} in
          call (worker_postMessage message) (postMessage worker message) ;;
          emit (imageBitmap_close imageBitmap) ;;
          ret true
      end
  end.

(** The image [sendDataToWorker] hands to the worker for a grabbed bitmap:
    the bitmap itself, or what the fallback path reads back from the canvas. *)
Definition sampled_image (bitmap : ImageBitmap) (w : World) : Image :=
  if OffscreenCanvas w then image_bitmap bitmap
  else match context w with
       | object _ =>
           image_data {| imagedata_width := bitmap_width bitmap;
                         imagedata_height := bitmap_height bitmap;
                         imagedata_drawn := [bitmap] |}
       | _ => image_undefined
       end.

(** The detection request for a grabbed bitmap. *)
Definition detection_request (bitmap : ImageBitmap) (threshold : option float) (w : World)
    : WorkerMessage :=
  {| msg_type := DETECT_FACE;
     msg_image := sampled_image bitmap w;
     msg_threshold := default 10%float threshold |}.

Definition getFaceBoxForId (id : string) (state : IState E) : option FaceBox :=
  faceBoxes (features_face_landmarks state) !! id.

Definition getVideoObjectPosition (state : IState E) (id : option string) : string :=
  let faceBox :=
    match id with
    | Some i => if ToBoolean i then getFaceBoxForId i state else None
    | None => None
    end in
  match faceBox with
  | Some box =>
      match right box, width box with
      | Some r, Some w =>
          if ToBoolean r && ToBoolean w
          then NumberToString (r - w / 2)%float +:+ "% 50%"
          else "50% 50%"
      | _, _ => "50% 50%"
      end
  | None => "50% 50%"
  end.

Definition getDetectionInterval (state : IState E) : float :=
  let faceLandmarks := faceLandmarks (features_base_config state) in
  Math_max [or_else (faceLandmarks ≫= captureInterval) SEND_IMAGE_INTERVAL_MS].

Definition getFaceExpressionDuration (state : IState E) (faceExpressionCount : float) : float :=
  (faceExpressionCount * (getDetectionInterval state / 1000))%float.

End Model.

(** The world after the sampling step of [sendDataToWorker]: untouched
    with [OffscreenCanvas]; otherwise the canvas, when there is one, is
    sized to the bitmap and holds what the context, if any, drew. *)
Definition sampled_world (bitmap : ImageBitmap) (w : World) : World :=
  if OffscreenCanvas w then w
  else match canvas w with
       | Some _ =>
           with_canvas {| canvas_width := Npos (bitmap_width bitmap);
                          canvas_height := Npos (bitmap_height bitmap);
                          canvas_drawn := match context w with
                                          | object _ => [bitmap]
                                          | _ => []
                                          end |} w
       | None => w
       end.


(** ** Reading traces *)

(** The bitmaps closed, the messages posted to the worker, the requests
    issued and the log entries written, in order. *)
Definition closed_bitmaps {E} (evs : list (Event E)) : list ImageBitmap :=
  omap (fun ev => match ev with imageBitmap_close b => Some b | _ => None end) evs.

Definition posted_messages {E} (evs : list (Event E)) : list WorkerMessage :=
  omap (fun ev => match ev with worker_postMessage m => Some m | _ => None end) evs.

Definition requests {E} (evs : list (Event E)) : list (string * RequestInit E) :=
  omap (fun ev => match ev with window_fetch input init => Some (input, init) | _ => None end) evs.

Definition warnings {E} (evs : list (Event E)) : list (list LogArg) :=
  omap (fun ev => match ev with logger_warn args => Some args | _ => None end) evs.

Definition errors {E} (evs : list (Event E)) : list (list LogArg) :=
  omap (fun ev => match ev with logger_error args => Some args | _ => None end) evs.

(** The calls a broadcast made to the conference, in order. *)
Definition sent_to_conference {E} (evs : list (Event E))
    : list (EndpointMessage + FaceLandmarksPayload) :=
  omap (fun ev => match ev with
                  | conference_sendEndpointMessage _ payload => Some (inl payload)
                  | conference_sendFaceLandmarks payload => Some (inr payload)
                  | _ => None
                  end) evs.

(** ** Sample inputs *)

(** An entry of the expression buffer, for the samples. *)
Record SampleEntry := { emotion : string; timestamp : Z }.

Definition sample_box : FaceBox := {| right := Some 80%float; width := Some 20%float |}.

(** A state with a face box for participant ["abc"] and a connection. *)
Definition sample_state_with (url jwt : option string) (buffer : list SampleEntry)
    (interval : float) : IState SampleEntry :=
  {| features_base_config :=
       {| webhookProxyUrl := url;
          faceLandmarks := Some {| captureInterval := Some interval |} |};
     features_base_conference := {| conference := None |};
     features_base_jwt := {| jwt := jwt |};
     features_base_connection :=
       {| connection := Some {| getJid := fun _ => "me@example/res" |} |};
     features_face_landmarks :=
       {| faceExpressionsBuffer := buffer;
          faceBoxes := {["abc" := sample_box]} |} |}.

Definition sample_buffer : list SampleEntry := [{| emotion := "happy"; timestamp := 1 |}].

(** The same with a webhook, a token and one buffered entry. *)
Definition sample_state (interval : float) : IState SampleEntry :=
  sample_state_with (Some "https://hooks.example") (Some "token") sample_buffer interval.

(** ** Sample collaborators *)

Definition sample_bitmap : ImageBitmap :=
  {| bitmap_width := 640; bitmap_height := 480; bitmap_frame := 7 |}.

Definition sample_capture : ImageCapture :=
  {| grabFrame := {| ends := Returned sample_bitmap; elapsed := 4 |} |}.

Definition DataCloneError : Exn :=
  {| exn_name := "DataCloneError"; exn_message := "The object could not be cloned." |}.

Definition NetworkError : Exn :=
  {| exn_name := "TypeError"; exn_message := "Failed to fetch" |}.

(** A worker that takes every message, and one whose hand-off throws. *)
Definition accepting_worker : Worker :=
  {| postMessage := fun _ => {| ends := Returned tt; elapsed := 0 |} |}.

Definition failing_worker : Worker :=
  {| postMessage := fun _ => {| ends := Thrown DataCloneError; elapsed := 0 |} |}.

(** A conference whose send primitives throw. *)
Definition failing_conference : JitsiConference :=
  {| sessionId := Some "session";
     sendEndpointMessage := Some (fun _ _ => {| ends := Thrown NetworkError; elapsed := 1 |});
     sendFaceLandmarks := Some (fun _ => {| ends := Thrown NetworkError; elapsed := 1 |}) |}.

(** A webhook that answers every request with the given status after
    30 ms, and one that cannot be reached. *)
Definition answering_fetch (code : Z) (input : string) (init : RequestInit SampleEntry)
    : Reply Response :=
  {| ends := Returned {| status := code |}; elapsed := 30 |}.

Definition unreachable_fetch (input : string) (init : RequestInit SampleEntry)
    : Reply Response :=
  {| ends := Thrown NetworkError; elapsed := 30 |}.

Definition no_participant (state : IState SampleEntry) : option ILocalParticipant := None.

Definition sample_fqn (_ : unit) : string := "tenant/room".

(** ** [notifications/components/web/NotificationsContainer.tsx] *)

Module NotificationsContainer.

(** [Boolean(value)] on a flag that may be missing. *)
#[export] Instance bool_truthy : Truthy bool := fun b => b.

(** A notification of the store: its own props, over the type [V] of
    their values, and its uid. *)
Record Notification (V : Type) := { props : gmap string V; uid : float }.
Arguments props {V} _.
Arguments uid {V} _.

(** The slices of the redux state [_mapStateToProps] reads:
    [state['features/notifications'].notifications],
    [state['features/base/config'].iAmSipGateway] and
    [state['features/chat'].isOpen]. *)
Record IState (V : Type) := {
  notifications : list (Notification V);
  iAmSipGateway : option bool;
  isOpen : bool
}.
Arguments notifications {V} _.
Arguments iAmSipGateway {V} _.
Arguments isOpen {V} _.

(** The JSS classes object. *)
Record Classes := { container : string; containerPortal : string; transitionGroup : string }.

Record Props (V : Type) := {
  _iAmSipGateway : bool;
  _isChatOpen : bool;
  _notifications : list (Notification V);
  classes : Classes;
  portal : option bool
}.
Arguments _iAmSipGateway {V} _.
Arguments _isChatOpen {V} _.
Arguments _notifications {V} _.
Arguments classes {V} _.
Arguments portal {V} _.

(** What [_onDismissed] calls: [clearTimeout] and the [dispatch] prop. *)
Inductive Call (Action : Type) : Type :=
| clearTimeout (handle : float)
| dispatch (action : Action).
Arguments clearTimeout {Action} _.
Arguments dispatch {Action} _.

(** A run of [_onDismissed]: how it ended, what it called, and the
    [_timeouts] map it left. *)
Record Dismissal (Action : Type) := {
  dismissal_outcome : Outcome unit;
  dismissal_calls : list (Call Action);
  dismissal_timeouts : gmap string float
}.
Arguments dismissal_outcome {Action} _.
Arguments dismissal_calls {Action} _.
Arguments dismissal_timeouts {Action} _.

(** A prop of a rendered [Notification]: a value of the notification's own
    props, a uid, or the container's [_onDismissed]. *)
Inductive PropValue (V : Type) : Type :=
| own_prop (value : V)
| uid_prop (uid : float)
| onDismissed_prop.
Arguments own_prop {V} _.
Arguments uid_prop {V} _.
Arguments onDismissed_prop {V}.

(** The names React (16 to 18) keeps for itself: an element's props never
    hold them, whether they were written as attributes or came from a
    spread. *)
Definition reserved_props : list string := ["key"; "ref"; "__self"; "__source"].

(** The props React builds from the attributes of an element. *)
Definition element_props_of {A} (attributes : gmap string A) : gmap string A :=
  foldr delete attributes reserved_props.

(** A [Notification] element: the attributes its key and its ref are made
    from, when given, and its props. *)
Record NotificationElement (V : Type) := {
  element_key : option (PropValue V);
  element_ref : option (PropValue V);
  element_props : gmap string (PropValue V)
}.
Arguments element_key {V} _.
Arguments element_ref {V} _.
Arguments element_props {V} _.

(** The element React creates for attributes given in order, later ones
    overriding earlier ones. *)
Definition createElement {V} (attributes : gmap string (PropValue V))
    : NotificationElement V :=
  {| element_key := attributes !! "key";
     element_ref := attributes !! "ref";
     element_props := element_props_of attributes |}.

(** A [CSSTransition] element around a [Notification] element. *)
Record CSSTransition (V : Type) := {
  appear : bool;
  classNames : string;
  transition_in : bool;
  key : float;
  timeout : float;
  notification : NotificationElement V
}.
Arguments appear {V} _.
Arguments classNames {V} _.
Arguments transition_in {V} _.
Arguments key {V} _.
Arguments timeout {V} _.
Arguments notification {V} _.

(** The [_api] object of the constructor. *)
Record FlagGroupApi (V : Type) := {
  api_onDismissed : PropValue V;
  dismissAllowed : unit -> bool
}.
Arguments api_onDismissed {V} _.
Arguments dismissAllowed {V} _.

(** The tree [render] returns when it renders. *)
Record Rendered (V : Type) := {
  theme_mode : string;
  context_value : FlagGroupApi V;
  className : string;
  element_id : string;
  transitionGroup_className : string;
  flags : list (CSSTransition V)
}.
Arguments theme_mode {V} _.
Arguments context_value {V} _.
Arguments className {V} _.
Arguments element_id {V} _.
Arguments transitionGroup_className {V} _.
Arguments flags {V} _.

Section Component.

Context {V Action : Type}.

(** [hideNotification] of [../../actions], [areThereNotifications] of
    [../../functions] and the [clsx] package are not among the sources. *)
Variable hideNotification : string -> Action.
Variable areThereNotifications : IState V -> bool.
Variable clsx : string -> list (string * option bool) -> string.

Definition _api : FlagGroupApi V :=
  {| api_onDismissed := onDismissed_prop; dismissAllowed := fun _ => true |}.

Definition _onDismissed (dispatch_prop : Action -> Outcome unit) (uid : string)
    (_timeouts : gmap string float) : Dismissal Action :=
  let timeout := _timeouts !! uid in
  let cleared :=
    if ToBoolean timeout
    then (from_option (fun handle => [clearTimeout handle]) [] timeout, delete uid _timeouts)
    else ([], _timeouts) in
  {| dismissal_outcome := dispatch_prop (hideNotification uid);
     dismissal_calls := fst cleared ++ [dispatch (hideNotification uid)];
     dismissal_timeouts := snd cleared |}.

Definition _renderFlags (props : Props V) : list (CSSTransition V) :=
  map (fun notification =>
         {| appear := true;
            classNames := "notification";
            transition_in := true;
            key := uid notification;
            timeout := 200;
            notification :=
              createElement
                (<["uid" := uid_prop (uid notification)]>
                   (<["onDismissed" := onDismissed_prop]>
                      (<["id" := uid_prop (uid notification)]>
                         (own_prop <$> NotificationsContainer.props notification)))) |})
      (_notifications props).

Definition render (props : Props V) : option (Rendered V) :=
  if _iAmSipGateway props then None
  else Some {| theme_mode := "light";
               context_value := _api;
               className := clsx (container (classes props))
                                 [(containerPortal (classes props), portal props)];
               element_id := "notifications-container";
               transitionGroup_className := transitionGroup (classes props);
               flags := _renderFlags props |}.

(** The props [_mapStateToProps] computes, beside the ones the component is
    given. *)
Definition _mapStateToProps (state : IState V) (classes : Classes) (portal : option bool)
    : Props V :=
  let _visible := areThereNotifications state in
  {| _iAmSipGateway := ToBoolean (iAmSipGateway state);
     _isChatOpen := isOpen state;
     _notifications := if _visible then notifications state else [];
     classes := classes;
     portal := portal |}.

End Component.

End NotificationsContainer.

(** ** [AbstractGrantModeratorDialog] *)

Module GrantModeratorDialog.

(** What [_onSubmit] calls. *)
Inductive Call (Event Action : Type) : Type :=
| sendAnalytics (event : Event)
| dispatch (action : Action).
Arguments sendAnalytics {Event Action} _.
Arguments dispatch {Event Action} _.

Record Submission (Event Action : Type) := {
  submission_outcome : Outcome bool;
  submission_calls : list (Call Event Action)
}.
Arguments submission_outcome {Event Action} _.
Arguments submission_calls {Event Action} _.

Section Component.

Context {Event Action : Type}.

(** [createRemoteVideoMenuButtonEvent] of the analytics feature and
    [grantModerator] of the participants' actions are not among the
    sources; [sendAnalytics] and the [dispatch] prop are calls that may
    throw. *)
Variable createRemoteVideoMenuButtonEvent : string -> gmap string string -> Event.
Variable grantModerator : string -> Action.

Definition _onSubmit (sendAnalytics_call : Event -> Outcome unit)
    (dispatch_prop : Action -> Outcome unit) (participantID : string)
    : Submission Event Action :=
  let event := createRemoteVideoMenuButtonEvent "grant.moderator.button"
                 {["participant_id" := participantID]} in
  match sendAnalytics_call event with
  | Thrown err =>
      {| submission_outcome := Thrown err; submission_calls := [sendAnalytics event] |}
  | Returned _ =>
      {| submission_outcome :=
           match dispatch_prop (grantModerator participantID) with
           | Thrown err => Thrown err
           | Returned _ => Returned true
           end;
         submission_calls := [sendAnalytics event; dispatch (grantModerator participantID)] |}
  end.

End Component.

End GrantModeratorDialog.

(** ** The prejoin [ConnectionStatus] component *)

Module ConnectionStatus.

Inductive IconSrc := IconArrowDownSmall | IconWifi1Bar | IconWifi2Bars | IconWifi3Bars.

(** An entry of [CONNECTION_TYPE_MAP]. *)
Record ConnectionEntry := {
  connectionClass : string;
  icon : IconSrc;
  connectionText : string
}.

Record Props := { connectionDetails : list string; connectionType : string }.

(** The rendered element: the status circle, the status text and the arrow
    of the header, and the details below.  The three values read from the
    entry are [undefined] when the entry lacks them. *)
Record View := {
  circle_className : string;
  circle_icon : option IconSrc;
  text_ariaHidden : bool;
  text : string;
  arrow_ariaPressed : bool;
  arrow_className : string;
  details_className : string;
  details_text : string
}.



Section Component.

(** [CONNECTION_TYPE] of [../../constants], which is not among the sources. *)
Variable POOR NON_OPTIMAL GOOD NONE : string.

(** The translation function [t] of the props; the argument may be
    [undefined]. *)
Variable t : option string -> string.

(** The property names every object inherits from [Object.prototype]. *)
Variable inherited : string -> bool.

Definition CONNECTION_TYPE_MAP : gmap string ConnectionEntry :=
  <[GOOD := {| connectionClass := "con-status--good";
               icon := IconWifi3Bars;
               connectionText := "prejoin.connection.good" |}]>
    (<[NON_OPTIMAL := {| connectionClass := "con-status--non-optimal";
                         icon := IconWifi2Bars;
                         connectionText := "prejoin.connection.nonOptimal" |}]>
       (<[POOR := {| connectionClass := "con-status--poor";
                     icon := IconWifi1Bar;
                     connectionText := "prejoin.connection.poor" |}]> ∅)).

(** A string or [undefined] inside a template literal. *)
Definition interpolate (value : option string) : string := default "undefined" value.



(** The component, at a render where the state [showDetails] has the given
    value.  Reading [CONNECTION_TYPE_MAP[connectionType]] finds the entry,
    or a value inherited from [Object.prototype], which has none of the
    three fields, or [undefined], which cannot be destructured. *)
Definition ConnectionStatus (props : Props) (showDetails : bool) : Outcome (option View) :=
  let arrowClassName :=
    if showDetails then "con-status-arrow con-status-arrow--up" else "con-status-arrow" in
  let detailsText :=
    String.concat " " (map (fun d => t (Some d)) (connectionDetails props)) in
  let detailsClassName :=
    if showDetails then "con-status-details-visible" else "con-status-details-hidden" in
  if (connectionType props =? NONE)%string then Returned None
  else
    let view (connectionClass : option string) (icon : option IconSrc)
             (connectionText : option string) :=
      Returned (Some {| circle_className := "con-status-circle " +:+ interpolate connectionClass;
                        circle_icon := icon;
                        text_ariaHidden := negb showDetails;
                        text := t connectionText;
                        arrow_ariaPressed := showDetails;
                        arrow_className := arrowClassName;
                        details_className := "con-status-details " +:+ detailsClassName;
                        details_text := detailsText |}) in
    match CONNECTION_TYPE_MAP !! connectionType props with
    | Some entry =>
        view (Some (connectionClass entry)) (Some (icon entry)) (Some (connectionText entry))
    | None =>
        if inherited (connectionType props) then view None None None
        else Thrown (TypeError "Cannot destructure a property of undefined")
    end.

End Component.

End ConnectionStatus.

(** ** Sample components *)

(** A store whose actions are strings. *)
Definition sample_hideNotification (uid : string) : string := "HIDE_NOTIFICATION " +:+ uid.

Definition sample_dispatch (action : string) : Outcome unit := Returned tt.

(** A notification that brings an [id], a [key] and a [title] of its own. *)
Definition sample_notification : NotificationsContainer.Notification string :=
  {| NotificationsContainer.props := {["id" := "mine"; "key" := "k"; "title" := "Hello"]};
     NotificationsContainer.uid := 7 |}.

Definition sample_notifications_state (gateway : option bool)
    : NotificationsContainer.IState string :=
  {| NotificationsContainer.notifications := [sample_notification];
     NotificationsContainer.iAmSipGateway := gateway;
     NotificationsContainer.isOpen := false |}.

Definition sample_classes : NotificationsContainer.Classes :=
  {| NotificationsContainer.container := "container-0";
     NotificationsContainer.containerPortal := "portal-0";
     NotificationsContainer.transitionGroup := "group-0" |}.

Definition sample_clsx (class : string) (conditional : list (string * option bool)) : string :=
  class.

Definition sample_translate (key : option string) : string := default "" key.

(** The names [Object.prototype] gives to every object. *)
Definition sample_inherited (name : string) : bool :=
  bool_decide (name ∈ ["constructor"; "hasOwnProperty"; "isPrototypeOf";
                       "propertyIsEnumerable"; "toLocaleString"; "toString"; "valueOf";
                       "__proto__"; "__defineGetter__"; "__defineSetter__";
                       "__lookupGetter__"; "__lookupSetter__"]).

(** ** Properties of the runtime operations *)

Lemma is_nan_true (x : float) : is_nan x = true -> x = nan.
Proof.
  unfold is_nan. rewrite FloatAxioms.eqb_spec. intros Hn.
  apply Prim2SF_inj.
  destruct (Prim2SF x) as [s | s | | s m e] eqn:Hx; try reflexivity; simpl in Hn.
  - destruct s; discriminate.
  - destruct s; discriminate.
  - unfold SFeqb, SFcompare in Hn.
    destruct s; rewrite Z.compare_refl, Pos.compare_cont_refl in Hn; discriminate.
Qed.

Lemma below_everything (x : float) :
  is_nan x = false -> (neg_infinity <? x)%float = false -> x = neg_infinity.
Proof.
  intros Hn Hlt. apply Prim2SF_inj.
  unfold is_nan in Hn. rewrite FloatAxioms.eqb_spec in Hn.
  rewrite FloatAxioms.ltb_spec in Hlt.
  change (Prim2SF neg_infinity) with (S754_infinity true) in *.
  destruct (Prim2SF x) as [s | s | | s m e]; try discriminate;
    destruct s; try discriminate; reflexivity.
Qed.

(** [Math.max] of a single value is that value. *)
Lemma Math_max_single (x : float) : Math_max [x] = x.
Proof.
  unfold Math_max. simpl. destruct (is_nan x) eqn:Hn.
  - symmetry. now apply is_nan_true.
  - unfold Math_max_step. change (classify neg_infinity) with NInf.
    destruct (neg_infinity <? x)%float eqn:Hlt.
    + destruct (classify x); reflexivity.
    + rewrite (below_everything x Hn Hlt). reflexivity.
Qed.

(** ** Properties of the monad *)

(** Unfold the monad's operations in the goal and compute. *)
Ltac run_effects :=
  unfold bind, try_catch, call, emit, ret, throw, now, OffscreenCanvas_undefined;
  cbn.

Lemma bind_ret_l {E A B} (a : A) (k : A -> M E B) (w : World) :
  bind (ret a) k w = k a w.
Proof. run_effects. destruct (k a w). reflexivity. Qed.

Lemma bind_ret_r {E A} (m : M E A) (w : World) :
  bind m ret w = m w.
Proof.
  run_effects. destruct (m w) as [[a | err] evs w']; cbn; [| reflexivity].
  now rewrite app_nil_r.
Qed.

Lemma bind_assoc {E A B C} (m : M E A) (k : A -> M E B) (h : B -> M E C) (w : World) :
  bind (bind m k) h w = bind m (fun a => bind (k a) h) w.
Proof.
  run_effects. destruct (m w) as [[a | err] evs w']; cbn; [| reflexivity].
  destruct (k a w') as [[b | err] evs' w'']; cbn; [| reflexivity].
  now rewrite app_assoc.
Qed.

(** A throw skips the rest; a handler sees what was thrown. *)
Lemma bind_throw {E A B} (err : Exn) (k : A -> M E B) (w : World) :
  bind (throw err) k w = throw err w.
Proof. reflexivity. Qed.

Lemma try_catch_throw {E A} (err : Exn) (handler : Exn -> M E A) (w : World) :
  try_catch (throw err) handler w = handler err w.
Proof. run_effects. destruct (handler err w). reflexivity. Qed.

(** The clock never runs backwards across a call. *)
Lemma call_clock {E A} (ev : Event E) (reply : Reply A) (w : World) :
  (clock w <= clock (world (call ev reply w)))%Z.
Proof. cbn. lia. Qed.

(** Zero, negative zero and [NaN] are falsy; other numbers are truthy. *)
Example ToBoolean_numbers :
  map ToBoolean [0; -0; nan; 80; -1; infinity]%float
  = [false; false; false; true; true; true].
Proof. reflexivity. Qed.

Example NumberToString_samples :
  map NumberToString [70; 67.5; 0.5; -2.5; 100; 0; -0; 1e21; nan; 80 - 25 / 2]%float
  = ["70"; "67.5"; "0.5"; "-2.5"; "100"; "0"; "0"; "1e+21"; "NaN"; "67.5"].
Proof. vm_compute. reflexivity. Qed.

Lemma module_init_canvas_ready (offscreen : bool)
    (getContext : option CanvasRenderingContext2D) (time : Z) :
  canvas_ready (module_init offscreen getContext time).
Proof. destruct offscreen; [left | right]; cbn; eauto. Qed.

(** ** Properties of the selectors *)

Section SelectorProperties.

Context {E : Type}.
Variable SEND_IMAGE_INTERVAL_MS : float.

(** The detection interval is the configured capture interval when that is
    truthy, and the default otherwise. *)
Lemma getDetectionInterval_eq (state : IState E) :
  getDetectionInterval SEND_IMAGE_INTERVAL_MS state
  = or_else (faceLandmarks (features_base_config state) ≫= captureInterval)
            SEND_IMAGE_INTERVAL_MS.
Proof. unfold getDetectionInterval. apply Math_max_single. Qed.

(** C1 (what the code does instead): a configured capture interval that is
    truthy is returned as it is, whatever the default; [Math.max] receives
    one argument only, so nothing is compared with the default. *)
Theorem getDetectionInterval_configured (state : IState E) (c : float) :
  faceLandmarks (features_base_config state) ≫= captureInterval = Some c ->
  ToBoolean c = true ->
  getDetectionInterval SEND_IMAGE_INTERVAL_MS state = c.
Proof.
  intros Hc Ht. rewrite getDetectionInterval_eq, Hc. unfold or_else. now rewrite Ht.
Qed.

(** C9: the duration of an expression is the count of consecutive
    detections times the detection interval divided by 1000; with an
    interval of 1000 ms, three detections last 3 seconds. *)
Theorem getFaceExpressionDuration_seconds (state : IState E) (faceExpressionCount : float) :
  getFaceExpressionDuration SEND_IMAGE_INTERVAL_MS state faceExpressionCount
  = (faceExpressionCount * (getDetectionInterval SEND_IMAGE_INTERVAL_MS state / 1000))%float
  /\ (getDetectionInterval SEND_IMAGE_INTERVAL_MS state = 1000%float ->
      getFaceExpressionDuration SEND_IMAGE_INTERVAL_MS state 3 = 3%float).
Proof.
  split; [reflexivity |].
  intros H. unfold getFaceExpressionDuration. rewrite H. reflexivity.
Qed.

(** Without a face box to read, the position is the centre. *)
Lemma getVideoObjectPosition_no_id (state : IState E) :
  getVideoObjectPosition state None = "50% 50%"
  /\ getVideoObjectPosition state (Some "") = "50% 50%".
Proof. split; reflexivity. Qed.

(** C4: for a participant whose face box stored in the state's [faceBoxes]
    is [{right: 80, width: 20}] the position is ["70% 50%"]; it is
    ["50% 50%"] when no box is stored for the participant, when the stored
    box lacks [right] or [width], and when [right] or [width] is 0; when
    both are truthy it is [right - width / 2] followed by ["% 50%"]. *)
Theorem getVideoObjectPosition_cases (state : IState E) (id : string) :
  id <> "" ->
  (faceBoxes (features_face_landmarks state) !! id
   = Some {| right := Some 80%float; width := Some 20%float |} ->
   getVideoObjectPosition state (Some id) = "70% 50%")
  /\ (faceBoxes (features_face_landmarks state) !! id = None ->
      getVideoObjectPosition state (Some id) = "50% 50%")
  /\ (forall box, faceBoxes (features_face_landmarks state) !! id = Some box ->
      right box = None \/ width box = None ->
      getVideoObjectPosition state (Some id) = "50% 50%")
  /\ (forall box, faceBoxes (features_face_landmarks state) !! id = Some box ->
      right box = Some 0%float \/ width box = Some 0%float ->
      getVideoObjectPosition state (Some id) = "50% 50%")
  /\ (forall box r w, faceBoxes (features_face_landmarks state) !! id = Some box ->
      right box = Some r -> width box = Some w ->
      ToBoolean r = true -> ToBoolean w = true ->
      getVideoObjectPosition state (Some id)
      = NumberToString (r - w / 2)%float +:+ "% 50%").
Proof.
  intros Hne.
  assert (Hid : ToBoolean id = true) by (destruct id; [congruence | reflexivity]).
  unfold getVideoObjectPosition, getFaceBoxForId. rewrite Hid.
  repeat split.
  - intros ->. vm_compute. reflexivity.
  - intros ->. reflexivity.
  - intros box -> [H | H]; rewrite H; [| destruct (right box)]; reflexivity.
  - intros box -> [H | H]; rewrite H.
    + destruct (width box); reflexivity.
    + destruct (right box) as [r |]; [| reflexivity].
      rewrite andb_comm. reflexivity.
  - intros box r w -> -> -> -> ->. reflexivity.
Qed.

End SelectorProperties.

(** At a default of 1000 ms and a configured interval of 500 ms the result
    is 500, below the default. *)
Lemma getDetectionInterval_configured_witness :
  getDetectionInterval 1000 (sample_state 500) = 500%float
  /\ (500 <? 1000)%float = true.
Proof.
  split; [| reflexivity].
  apply (getDetectionInterval_configured 1000 (sample_state 500) 500); reflexivity.
Defined.

Lemma getFaceExpressionDuration_seconds_witness :
  getDetectionInterval 0 (sample_state 1000) = 1000%float
  /\ getFaceExpressionDuration 0 (sample_state 1000) 3 = 3%float.
Proof.
  split; [reflexivity |].
  apply (getFaceExpressionDuration_seconds 0 (sample_state 1000) 3). reflexivity.
Defined.

Lemma getVideoObjectPosition_cases_witness :
  faceBoxes (features_face_landmarks (sample_state 1000)) !! "abc" = Some sample_box
  /\ getVideoObjectPosition (sample_state 1000) (Some "abc") = "70% 50%"
  /\ faceBoxes (features_face_landmarks (sample_state 1000)) !! "zzz" = None
  /\ getVideoObjectPosition (sample_state 1000) (Some "zzz") = "50% 50%".
Proof.
  destruct (getVideoObjectPosition_cases (sample_state 1000) "abc") as (Hstored & _);
    [discriminate |].
  destruct (getVideoObjectPosition_cases (sample_state 1000) "zzz") as (_ & Habsent & _);
    [discriminate |].
  split; [reflexivity | split; [apply Hstored; reflexivity | split; [reflexivity |]]].
  apply Habsent. reflexivity.
Defined.

(** ** Properties of the broadcasts *)

Section BroadcastProperties.

Context {E : Type}.
Variable FACE_BOX_EVENT_TYPE : string.

(** A [try] block whose handler only logs never throws. *)
Lemma try_catch_log_returns (block : M E unit) (entry : Exn -> Event E) (w : World) :
  outcome (try_catch block (fun err => emit (entry err)) w) = Returned tt.
Proof.
  unfold try_catch. destruct (outcome (block w)) as [[] | err] eqn:Hb.
  - exact Hb.
  - reflexivity.
Qed.

(** C8: whatever the conference handle and the payload, the three
    broadcasts return normally; when the send primitive throws, the call is
    followed by a warning that carries the error, and nothing escapes. *)
Theorem broadcasts_swallow_send_failures (conference : Nullable JitsiConference)
    (faceExpression : string) (duration : float) (faceBox : FaceBox) (w : World) :
  let expression := FaceLandmarkMessage "face_landmark" faceExpression duration in
  let box := FaceBoxMessage FACE_BOX_EVENT_TYPE faceBox in
  let report := {| fl_faceExpression := faceExpression; fl_duration := duration |} in
  (outcome (sendFaceExpressionToParticipants (E:=E) conference faceExpression duration w)
   = Returned tt
   /\ outcome (sendFaceBoxToParticipants (E:=E) FACE_BOX_EVENT_TYPE conference faceBox w)
      = Returned tt
   /\ outcome (sendFaceExpressionToServer (E:=E) conference faceExpression duration w)
      = Returned tt)
  /\ (forall c send err,
        conference = object c -> sendEndpointMessage c = Some send ->
        (ends (send "" expression) = Thrown err ->
         events (sendFaceExpressionToParticipants (E:=E) conference faceExpression duration w)
         = [conference_sendEndpointMessage "" expression;
            logger_warn
              [LogString "Could not broadcast the face expression to the other participants";
               LogError err]])
        /\ (ends (send "" box) = Thrown err ->
            events (sendFaceBoxToParticipants (E:=E) FACE_BOX_EVENT_TYPE conference faceBox w)
            = [conference_sendEndpointMessage "" box;
               logger_warn
                 [LogString "Could not broadcast the face box to the other participants";
                  LogError err]]))
  /\ (forall c send err,
        conference = object c -> sendFaceLandmarks c = Some send ->
        ends (send report) = Thrown err ->
        events (sendFaceExpressionToServer (E:=E) conference faceExpression duration w)
        = [conference_sendFaceLandmarks report;
           logger_warn
             [LogString "Could not send the face expression to xmpp server";
              LogError err]]).
Proof.
  intros expression box report. split; [| split].
  - repeat split; apply try_catch_log_returns.
  - intros c send err -> Hsend. split; intros Hthrow.
    + unfold sendFaceExpressionToParticipants, try_catch,
        conference_call_sendEndpointMessage, call.
      rewrite Hsend. cbn. fold expression. rewrite Hthrow. reflexivity.
    + unfold sendFaceBoxToParticipants, try_catch,
        conference_call_sendEndpointMessage, call.
      rewrite Hsend. cbn. fold box. rewrite Hthrow. reflexivity.
  - intros c send err -> Hsend Hthrow.
    unfold sendFaceExpressionToServer, try_catch, conference_call_sendFaceLandmarks, call.
    rewrite Hsend. cbn. fold report. rewrite Hthrow. reflexivity.
Qed.

(** A handle that is [null] or [undefined], or that lacks the primitive,
    makes the call itself throw; that error is logged as well. *)
Lemma broadcast_without_conference (faceExpression : string) (duration : float) (w : World) :
  warnings (events (sendFaceExpressionToParticipants (E:=E) undefined
                      faceExpression duration w))
  = [[LogString "Could not broadcast the face expression to the other participants";
      LogError (TypeError "conference is null or undefined")]].
Proof. reflexivity. Qed.

End BroadcastProperties.

Lemma broadcasts_swallow_send_failures_witness :
  let w := module_init true None 0 in
  outcome (sendFaceExpressionToParticipants (E:=SampleEntry)
             (object failing_conference) "happy" 2 w) = Returned tt
  /\ events (sendFaceExpressionToServer (E:=SampleEntry)
               (object failing_conference) "happy" 2 w)
     = [conference_sendFaceLandmarks {| fl_faceExpression := "happy"; fl_duration := 2 |};
        logger_warn [LogString "Could not send the face expression to xmpp server";
                     LogError NetworkError]].
Proof.
  intros w.
  pose proof (broadcasts_swallow_send_failures (E:=SampleEntry) "face-box"
                (object failing_conference) "happy" 2 sample_box w) as [[H1 _] [_ H3]].
  split; [exact H1 |].
  apply (H3 failing_conference (fun _ => {| ends := Thrown NetworkError; elapsed := 1 |}));
    reflexivity.
Defined.

(** ** Properties of the dispatch to the worker *)

Section DispatchProperties.

Context {E : Type}.
Variable DETECT_FACE : string.

(** Without an image capture nothing is grabbed or posted. *)
Lemma sendDataToWorker_no_capture (worker : Worker) (threshold : option float) (w : World) :
  sendDataToWorker (E:=E) DETECT_FACE worker null threshold w
  = {| outcome := Returned false; events := []; world := w |}
  /\ sendDataToWorker (E:=E) DETECT_FACE worker undefined threshold w
     = {| outcome := Returned false; events := []; world := w |}.
Proof. split; reflexivity. Qed.

(** A failed capture is logged and reported as not sent. *)
Lemma sendDataToWorker_capture_failure (worker : Worker) (imageCapture : ImageCapture)
    (threshold : option float) (w : World) (err : Exn) :
  ends (grabFrame imageCapture) = Thrown err ->
  outcome (sendDataToWorker (E:=E) DETECT_FACE worker (object imageCapture) threshold w)
  = Returned false
  /\ events (sendDataToWorker (E:=E) DETECT_FACE worker (object imageCapture) threshold w)
     = [imageCapture_grabFrame; logger_warn [LogError err]].
Proof.
  intros Hgrab. unfold sendDataToWorker. run_effects.
  rewrite Hgrab. cbn. split; reflexivity.
Qed.

(** After a successful capture, on a platform whose canvas is in place
    when it is needed, the request is posted; what follows depends on how
    the hand-off ends. *)
Lemma sendDataToWorker_grabbed (worker : Worker) (imageCapture : ImageCapture)
    (threshold : option float) (w : World) (bitmap : ImageBitmap) :
  ends (grabFrame imageCapture) = Returned bitmap ->
  canvas_ready w ->
  let message := detection_request DETECT_FACE bitmap threshold w in
  let r := sendDataToWorker (E:=E) DETECT_FACE worker (object imageCapture) threshold w in
  match ends (postMessage worker message) with
  | Returned _ =>
      outcome r = Returned true
      /\ events r = [imageCapture_grabFrame; worker_postMessage message;
                     imageBitmap_close bitmap]
  | Thrown err =>
      outcome r = Thrown err
      /\ events r = [imageCapture_grabFrame; worker_postMessage message]
  end.
Proof.
  intros Hgrab Hcanvas message r. subst message r.
  destruct w as [time offscreen cv ctx]. unfold canvas_ready in Hcanvas. cbn in Hcanvas.
  unfold detection_request, sampled_image, sendDataToWorker. run_effects.
  rewrite Hgrab. cbn.
  destruct offscreen; cbn.
  - destruct (ends (postMessage worker _)); cbn; split; reflexivity.
  - destruct Hcanvas as [Hc | [c Hc]]; [discriminate |]. subst cv.
    destruct ctx; cbn;
      destruct (ends (postMessage worker _)); cbn; split; reflexivity.
Qed.

(** C2 (what the code does instead): when the hand-off to the worker
    throws, the error leaves [sendDataToWorker]; the call to [postMessage]
    is not inside a [try] block. *)
Theorem sendDataToWorker_postMessage_failure_escapes (worker : Worker)
    (imageCapture : ImageCapture) (threshold : option float) (w : World)
    (bitmap : ImageBitmap) (err : Exn) :
  ends (grabFrame imageCapture) = Returned bitmap ->
  canvas_ready w ->
  ends (postMessage worker (detection_request DETECT_FACE bitmap threshold w)) = Thrown err ->
  outcome (sendDataToWorker (E:=E) DETECT_FACE worker (object imageCapture) threshold w)
  = Thrown err.
Proof.
  intros Hgrab Hcanvas Hpost.
  pose proof (sendDataToWorker_grabbed worker imageCapture threshold w bitmap Hgrab Hcanvas)
    as H.
  cbv zeta in H. rewrite Hpost in H. apply H.
Qed.

(** C3 (what the code does instead): the grabbed bitmap is closed exactly
    once, on both paths, when the hand-off returns; when the hand-off
    throws, [close()] is never reached. *)
Theorem sendDataToWorker_closes_bitmap (worker : Worker) (imageCapture : ImageCapture)
    (threshold : option float) (w : World) (bitmap : ImageBitmap) :
  ends (grabFrame imageCapture) = Returned bitmap ->
  canvas_ready w ->
  let message := detection_request DETECT_FACE bitmap threshold w in
  let r := sendDataToWorker (E:=E) DETECT_FACE worker (object imageCapture) threshold w in
  (ends (postMessage worker message) = Returned tt -> closed_bitmaps (events r) = [bitmap])
  /\ (forall err, ends (postMessage worker message) = Thrown err ->
      closed_bitmaps (events r) = []).
Proof.
  intros Hgrab Hcanvas message r.
  pose proof (sendDataToWorker_grabbed worker imageCapture threshold w bitmap Hgrab Hcanvas)
    as H.
  cbv zeta in H. fold message r in H.
  split.
  - intros Hpost. rewrite Hpost in H. destruct H as [_ ->]. reflexivity.
  - intros err Hpost. rewrite Hpost in H. destruct H as [_ ->]. reflexivity.
Qed.

(** C10: on the fallback path with a [null] context, a grabbed frame is
    still followed by one detection request, whose image is [undefined];
    the hand-off made, the function returns [true]. *)
Theorem sendDataToWorker_null_context (worker : Worker) (imageCapture : ImageCapture)
    (threshold : option float) (w : World) (bitmap : ImageBitmap) :
  OffscreenCanvas w = false -> context w = null -> is_Some (canvas w) ->
  ends (grabFrame imageCapture) = Returned bitmap ->
  let message := {| msg_type := DETECT_FACE; msg_image := image_undefined;
                    msg_threshold := default 10%float threshold |} in
  let r := sendDataToWorker (E:=E) DETECT_FACE worker (object imageCapture) threshold w in
  posted_messages (events r) = [message]
  /\ (ends (postMessage worker message) = Returned tt -> outcome r = Returned true).
Proof.
  intros Hoff Hctx Hcanvas Hgrab message r.
  pose proof (sendDataToWorker_grabbed worker imageCapture threshold w bitmap Hgrab
                (or_intror Hcanvas : canvas_ready w)) as H.
  cbv zeta in H. fold r in H.
  assert (Hm : detection_request DETECT_FACE bitmap threshold w = message).
  { unfold detection_request, sampled_image. now rewrite Hoff, Hctx. }
  rewrite Hm in H. split.
  - destruct (ends (postMessage worker message)); destruct H as [_ ->]; reflexivity.
  - intros Hpost. rewrite Hpost in H. apply H.
Qed.

End DispatchProperties.

(** With a worker that takes the message, the bitmap is closed once on the
    direct path and on the fallback path, with or without a 2D context. *)
Example sendDataToWorker_closes_once :
  map (fun w => closed_bitmaps
                  (events (sendDataToWorker (E:=SampleEntry) "detect-face" accepting_worker
                             (object sample_capture) None w)))
      [module_init true None 0; module_init false (Some Context2D) 0;
       module_init false None 0]
  = [[sample_bitmap]; [sample_bitmap]; [sample_bitmap]].
Proof. reflexivity. Qed.

Lemma sendDataToWorker_postMessage_failure_escapes_witness :
  outcome (sendDataToWorker (E:=SampleEntry) "detect-face" failing_worker
             (object sample_capture) None (module_init true None 0))
  = Thrown DataCloneError.
Proof.
  apply (sendDataToWorker_postMessage_failure_escapes "detect-face" failing_worker
           sample_capture None (module_init true None 0) sample_bitmap DataCloneError).
  - reflexivity.
  - left. reflexivity.
  - reflexivity.
Defined.

Lemma sendDataToWorker_closes_bitmap_witness :
  closed_bitmaps (events (sendDataToWorker (E:=SampleEntry) "detect-face" failing_worker
                            (object sample_capture) None
                            (module_init false (Some Context2D) 0)))
  = [].
Proof.
  apply (sendDataToWorker_closes_bitmap (E:=SampleEntry) "detect-face" failing_worker
           sample_capture None (module_init false (Some Context2D) 0) sample_bitmap
           eq_refl (or_intror (mk_is_Some _ _ eq_refl))
         ) with (err := DataCloneError).
  reflexivity.
Defined.

Lemma sendDataToWorker_null_context_witness :
  let r := sendDataToWorker (E:=SampleEntry) "detect-face" accepting_worker
             (object sample_capture) None (module_init false None 0) in
  posted_messages (events r)
  = [{| msg_type := "detect-face"; msg_image := image_undefined; msg_threshold := 10 |}]
  /\ outcome r = Returned true.
Proof.
  intros r.
  destruct (sendDataToWorker_null_context (E:=SampleEntry) "detect-face" accepting_worker
              sample_capture None (module_init false None 0) sample_bitmap
              eq_refl eq_refl (mk_is_Some _ _ eq_refl) eq_refl) as [Hposted Hsent].
  split; [exact Hposted | apply Hsent; reflexivity].
Defined.

(** ** Properties of the webhook submission *)

Section WebhookProperties.

Context {E : Type}.
Variable getLocalParticipant : IState E -> option ILocalParticipant.
Variable extractFqnFromPath : unit -> string.
Variable fetch : string -> RequestInit E -> Reply Response.

Local Abbreviation webhook :=
  (sendFaceExpressionsWebhook getLocalParticipant extractFqnFromPath fetch).

Lemma webhook_headers_content_type (jwt : option string) :
  webhook_headers jwt !! "Content-Type" = Some "application/json".
Proof. unfold webhook_headers. apply lookup_insert_eq. Qed.

Lemma webhook_headers_authorization (jwt : option string) :
  webhook_headers jwt !! "Authorization"
  = match jwt with
    | Some token => if ToBoolean token then Some ("Bearer " +:+ token) else None
    | None => None
    end.
Proof.
  unfold webhook_headers. rewrite lookup_insert_ne by discriminate.
  destruct jwt as [token |]; [| reflexivity].
  destruct (ToBoolean token); [apply lookup_singleton_eq | reflexivity].
Qed.

(** With an empty buffer the function returns at once. *)
Lemma webhook_empty_buffer (state : IState E) (w : World) :
  faceExpressionsBuffer (features_face_landmarks state) = [] ->
  webhook state w = {| outcome := Returned false; events := []; world := w |}.
Proof. intros Hbuf. unfold sendFaceExpressionsWebhook. rewrite Hbuf. reflexivity. Qed.

(** With entries to send but no URL, the time is read for the body and
    nothing is sent. *)
Lemma webhook_no_url (state : IState E) (w : World) :
  faceExpressionsBuffer (features_face_landmarks state) <> [] ->
  ToBoolean (webhookProxyUrl (features_base_config state)) = false ->
  webhook state w = {| outcome := Returned false; events := [Date_now]; world := w |}.
Proof.
  intros Hbuf Hurl. unfold sendFaceExpressionsWebhook.
  destruct (faceExpressionsBuffer (features_face_landmarks state)); [congruence |].
  destruct (webhookProxyUrl (features_base_config state)) as [base |]; cbn in Hurl |- *.
  - rewrite Hurl. reflexivity.
  - reflexivity.
Qed.

(** With entries to send and a URL, one request is issued and its reply
    decides the result. *)
Lemma webhook_sent (state : IState E) (w : World) (base : string) :
  faceExpressionsBuffer (features_face_landmarks state) <> [] ->
  webhookProxyUrl (features_base_config state) = Some base ->
  ToBoolean base = true ->
  let input := base +:+ "/emotions" in
  let init := webhook_request getLocalParticipant extractFqnFromPath state (clock w) in
  let reply := fetch input init in
  webhook state w
  = {| outcome := match ends reply with
                  | Returned res => Returned (ok res)
                  | Thrown _ => Returned false
                  end;
       events := [Date_now; window_fetch input init]
                 ++ match ends reply with
                    | Returned res =>
                        if ok res then []
                        else [logger_error [LogString "Status error:";
                                            LogNumber (status res)]]
                    | Thrown err =>
                        [logger_error [LogString "Could not send request"; LogError err]]
                    end;
       world := advance (elapsed reply) w |}.
Proof.
  intros Hbuf Hurl Hbase input init reply. subst input init reply.
  unfold sendFaceExpressionsWebhook, webhook_request.
  destruct (faceExpressionsBuffer (features_face_landmarks state)) eqn:Hb; [congruence |].
  rewrite Hurl, Hbase. cbn. run_effects.
  destruct (ends (fetch _ _)) as [res | err]; cbn.
  - destruct (ok res); reflexivity.
  - reflexivity.
Qed.

(** C5: every request the webhook issues carries
    [Content-Type: application/json]; with a token it carries
    [Authorization: Bearer <token>], and without one (or with an empty one)
    it has no [Authorization] header at all. *)
Theorem webhook_request_headers (state : IState E) (w : World)
    (input : string) (init : RequestInit E) :
  In (input, init) (requests (events (webhook state w))) ->
  headers init !! "Content-Type" = Some "application/json"
  /\ (forall token, jwt (features_base_jwt state) = Some token -> token <> "" ->
      headers init !! "Authorization" = Some ("Bearer " +:+ token))
  /\ (jwt (features_base_jwt state) = None \/ jwt (features_base_jwt state) = Some "" ->
      headers init !! "Authorization" = None).
Proof.
  intros Hin.
  assert (Hh : headers init = webhook_headers (jwt (features_base_jwt state))).
  { destruct (faceExpressionsBuffer (features_face_landmarks state)) eqn:Hbuf.
    - rewrite webhook_empty_buffer in Hin by assumption. destruct Hin.
    - destruct (ToBoolean (webhookProxyUrl (features_base_config state))) eqn:Hurl.
      + destruct (webhookProxyUrl (features_base_config state)) as [base |] eqn:Hb;
          [| discriminate].
        rewrite (webhook_sent state w base) in Hin by (congruence || assumption).
        cbn in Hin.
        destruct (ends (fetch _ _)) as [res | err]; [destruct (ok res) |];
          cbn in Hin; destruct Hin as [Heq | []]; inversion Heq; reflexivity.
      + rewrite webhook_no_url in Hin by (congruence || assumption). destruct Hin. }
  rewrite Hh, webhook_headers_content_type, webhook_headers_authorization.
  split; [reflexivity | split].
  - intros token -> Hne. destruct token; [congruence | reflexivity].
  - intros [-> | ->]; reflexivity.
Qed.

(** C6: with an empty buffer the function returns [false] before anything
    else happens; with entries but no URL it reads the time for the body,
    sends nothing and returns [false]. *)
Theorem webhook_not_sent (state : IState E) (w : World) :
  (faceExpressionsBuffer (features_face_landmarks state) = [] ->
   outcome (webhook state w) = Returned false /\ events (webhook state w) = [])
  /\ (faceExpressionsBuffer (features_face_landmarks state) <> [] ->
      webhookProxyUrl (features_base_config state) = None
      \/ webhookProxyUrl (features_base_config state) = Some "" ->
      outcome (webhook state w) = Returned false
      /\ events (webhook state w) = [Date_now]
      /\ requests (events (webhook state w)) = []).
Proof.
  split.
  - intros Hbuf. rewrite webhook_empty_buffer by assumption. split; reflexivity.
  - intros Hbuf Hurl.
    rewrite webhook_no_url by (assumption || destruct Hurl as [-> | ->]; reflexivity).
    repeat split; reflexivity.
Qed.

(** C7: with entries to send and a URL, exactly one request is issued, a
    [POST] to [<url>/emotions] whose body holds the buffer as it is and the
    time read during the call; the result is [true] exactly when the reply
    has a success status; a reply with another status and a failed request
    are logged and give [false]; nothing is thrown and nothing is sent
    twice. *)
Theorem webhook_single_post (state : IState E) (w : World) (base : string) :
  faceExpressionsBuffer (features_face_landmarks state) <> [] ->
  webhookProxyUrl (features_base_config state) = Some base ->
  base <> "" ->
  let r := webhook state w in
  exists (init : RequestInit E) (content : ReqBody E),
    requests (events r) = [(base +:+ "/emotions", init)]
    /\ method init = "POST"
    /\ body init = JSON_stringify content
    /\ emotions content = faceExpressionsBuffer (features_face_landmarks state)
    /\ (clock w <= submitted content)%Z
    /\ (outcome r = Returned true
        <-> exists res, ends (fetch (base +:+ "/emotions") init) = Returned res
                        /\ (200 <= status res <= 299)%Z)
    /\ (outcome r = Returned true \/ outcome r = Returned false)
    /\ (forall res, ends (fetch (base +:+ "/emotions") init) = Returned res ->
        ~ (200 <= status res <= 299)%Z ->
        outcome r = Returned false
        /\ errors (events r) = [[LogString "Status error:"; LogNumber (status res)]])
    /\ (forall err, ends (fetch (base +:+ "/emotions") init) = Thrown err ->
        outcome r = Returned false
        /\ errors (events r) = [[LogString "Could not send request"; LogError err]]).
Proof.
  intros Hbuf Hurl Hbase r.
  assert (Ht : ToBoolean base = true) by (destruct base; [congruence | reflexivity]).
  pose proof (webhook_sent state w base Hbuf Hurl Ht) as Hrun. cbv zeta in Hrun.
  fold r in Hrun.
  assert (Hok : forall res, ok res = true <-> (200 <= status res <= 299)%Z).
  { intros res. unfold ok. rewrite andb_true_iff, !Z.leb_le. reflexivity. }
  eexists (webhook_request getLocalParticipant extractFqnFromPath state (clock w)), _.
  split; [| split; [| split; [reflexivity | split; [reflexivity | split]]]].
  - rewrite Hrun. cbn.
    destruct (ends (fetch _ _)) as [res | err]; [destruct (ok res) |]; reflexivity.
  - reflexivity.
  - cbn. apply Z.le_refl.
  - rewrite Hrun. cbn.
    destruct (ends (fetch _ _)) as [res | err] eqn:Hreply.
    + split; [| split; [| split]].
      * split.
        -- intros Hret. exists res. split; [reflexivity |]. apply Hok. congruence.
        -- intros (res' & Heq & Hs). injection Heq as <-.
           apply Hok in Hs. now rewrite Hs.
      * destruct (ok res); [left | right]; reflexivity.
      * intros res' Heq Hs. injection Heq as <-.
        destruct (ok res) eqn:Hk; [apply Hok in Hk; contradiction |].
        split; reflexivity.
      * intros err Heq. discriminate.
    + split; [| split; [| split]].
      * split; [discriminate |]. intros (res & Heq & _). discriminate.
      * right. reflexivity.
      * intros res Heq. discriminate.
      * intros err' Heq. injection Heq as <-. split; reflexivity.
Qed.

End WebhookProperties.

Lemma webhook_request_headers_witness :
  let init := webhook_request no_participant sample_fqn (sample_state 1000) 0 in
  headers init !! "Content-Type" = Some "application/json"
  /\ headers init !! "Authorization" = Some "Bearer token".
Proof.
  intros init.
  destruct (webhook_request_headers no_participant sample_fqn (answering_fetch 200)
              (sample_state 1000) (module_init true None 0)
              "https://hooks.example/emotions" init) as (Htype & Hauth & _).
  - left. reflexivity.
  - split; [exact Htype | apply (Hauth "token"); [reflexivity | discriminate]].
Defined.

Lemma webhook_not_sent_witness :
  let w := module_init true None 0 in
  outcome (sendFaceExpressionsWebhook no_participant sample_fqn (answering_fetch 200)
             (sample_state_with (Some "https://hooks.example") None [] 1000) w)
  = Returned false
  /\ events (sendFaceExpressionsWebhook no_participant sample_fqn (answering_fetch 200)
               (sample_state_with None None sample_buffer 1000) w)
     = [Date_now].
Proof.
  intros w. split.
  - destruct (webhook_not_sent no_participant sample_fqn (answering_fetch 200)
                (sample_state_with (Some "https://hooks.example") None [] 1000) w)
      as [Hempty _].
    apply Hempty. reflexivity.
  - destruct (webhook_not_sent no_participant sample_fqn (answering_fetch 200)
                (sample_state_with None None sample_buffer 1000) w)
      as [_ Hnourl].
    apply Hnourl; [discriminate | left; reflexivity].
Defined.

Lemma webhook_single_post_witness :
  outcome (sendFaceExpressionsWebhook no_participant sample_fqn (answering_fetch 200)
             (sample_state 1000) (module_init true None 0))
  = Returned true.
Proof.
  destruct (webhook_single_post no_participant sample_fqn (answering_fetch 200)
              (sample_state 1000) (module_init true None 0) "https://hooks.example")
    as (init & content & _ & _ & _ & _ & _ & Hsent & _).
  - discriminate.
  - reflexivity.
  - discriminate.
  - apply Hsent. exists {| status := 200 |}. split; [reflexivity | cbn; lia].
Defined.

(** The same webhook answering 500, and out of reach: one request, an
    error logged, [false]. *)
Example webhook_status_500 :
  let r := sendFaceExpressionsWebhook no_participant sample_fqn (answering_fetch 500)
             (sample_state 1000) (module_init true None 0) in
  outcome r = Returned false
  /\ length (requests (events r)) = 1%nat
  /\ errors (events r) = [[LogString "Status error:"; LogNumber 500]].
Proof. repeat split. Qed.

Example webhook_unreachable :
  let r := sendFaceExpressionsWebhook no_participant sample_fqn unreachable_fetch
             (sample_state 1000) (module_init true None 0) in
  outcome r = Returned false
  /\ length (requests (events r)) = 1%nat
  /\ errors (events r) = [[LogString "Could not send request"; LogError NetworkError]].
Proof. repeat split. Qed.

(** ** Further properties of the dispatch to the worker *)

(** Whether the canvas is in place can be told from the world. *)
Lemma classic_ready (w : World) : canvas_ready w \/ ~ canvas_ready w.
Proof.
  unfold canvas_ready. destruct (OffscreenCanvas w); [left; left; reflexivity |].
  destruct (canvas w) as [c |]; [left; right; eauto | right].
  intros [H | [c H]]; discriminate.
Qed.

Section DispatchEdges.

Context {E : Type}.
Variable DETECT_FACE : string.

Local Abbreviation dispatch := (sendDataToWorker (E:=E) DETECT_FACE).

(** The whole run after a successful capture, with the canvas in place. *)
Lemma sendDataToWorker_grabbed_run (worker : Worker) (capture : ImageCapture)
    (threshold : option float) (w : World) (bitmap : ImageBitmap) :
  ends (grabFrame capture) = Returned bitmap ->
  canvas_ready w ->
  let reply := postMessage worker (detection_request DETECT_FACE bitmap threshold w) in
  dispatch worker (object capture) threshold w
  = {| outcome := match ends reply with
                  | Returned _ => Returned true
                  | Thrown err => Thrown err
                  end;
       events := [imageCapture_grabFrame;
                  worker_postMessage (detection_request DETECT_FACE bitmap threshold w)]
                 ++ match ends reply with
                    | Returned _ => [imageBitmap_close bitmap]
                    | Thrown _ => []
                    end;
       world := advance (elapsed reply)
                  (sampled_world bitmap (advance (elapsed (grabFrame capture)) w)) |}.
Proof.
  intros Hgrab Hready reply. subst reply.
  destruct capture as [[grabbed waited]]. cbn in Hgrab. subst grabbed.
  destruct worker as [post].
  destruct w as [time offscreen cv ctx]. unfold canvas_ready in Hready. cbn in Hready.
  destruct offscreen.
  - lazy. destruct (post _) as [[[] | err] took]; reflexivity.
  - destruct Hready as [Hc | [c Hc]]; [discriminate |]. subst cv.
    destruct ctx; lazy; destruct (post _) as [[[] | err] took]; reflexivity.
Qed.

(** Sampling keeps the platform flag and the context, and a canvas that is
    in place stays in place. *)
Lemma sampled_world_platform (bitmap : ImageBitmap) (before after : N) (w : World) :
  let w' := advance after (sampled_world bitmap (advance before w)) in
  OffscreenCanvas w' = OffscreenCanvas w
  /\ context w' = context w
  /\ (canvas_ready w -> canvas_ready w').
Proof.
  destruct w as [time offscreen cv ctx]. unfold canvas_ready, sampled_world. cbn.
  destruct offscreen; cbn.
  - repeat split. intros _. left. reflexivity.
  - destruct cv as [c |]; cbn; repeat split.
    + intros _. right. eauto.
    + intros H. exact H.
Qed.

(** The request for a frame depends on the world only through the
    platform flag and the context. *)
Lemma detection_request_platform (bitmap : ImageBitmap) (threshold : option float)
    (w' w : World) :
  OffscreenCanvas w' = OffscreenCanvas w -> context w' = context w ->
  detection_request DETECT_FACE bitmap threshold w'
  = detection_request DETECT_FACE bitmap threshold w.
Proof. intros Hoff Hctx. unfold detection_request, sampled_image. now rewrite Hoff, Hctx. Qed.

(** Nothing reaches the worker without a grabbed frame: at most one
    message is posted, and a posted message is the detection request for
    the frame the capture returned, with the constant tag and the threshold
    given (10 when none is). *)
Theorem sendDataToWorker_posts_grabbed_frame (worker : Worker)
    (imageCapture : Nullable ImageCapture) (threshold : option float) (w : World) :
  let r := dispatch worker imageCapture threshold w in
  (length (posted_messages (events r)) <= 1)%nat
  /\ (forall message, In message (posted_messages (events r)) ->
      exists capture bitmap,
        imageCapture = object capture
        /\ ends (grabFrame capture) = Returned bitmap
        /\ message = detection_request DETECT_FACE bitmap threshold w).
Proof.
  destruct imageCapture as [| | capture];
    [split; [cbn; lia | intros m []] | split; [cbn; lia | intros m []] |].
  destruct (ends (grabFrame capture)) as [bitmap | err] eqn:Hgrab.
  - destruct (classic_ready w) as [Hready | Hnot].
    + rewrite (sendDataToWorker_grabbed_run worker capture threshold w bitmap Hgrab Hready).
      cbn. destruct (ends (postMessage worker _)); cbn; (split; [lia |]);
        intros m [<- | []]; exists capture, bitmap; repeat split; assumption.
    + destruct capture as [[grabbed waited]]. cbn in Hgrab. subst grabbed.
      destruct w as [time offscreen cv ctx].
      destruct offscreen; [destruct Hnot; left; reflexivity |].
      destruct cv as [c |]; [destruct Hnot; right; cbn; eauto |].
      lazy. split; [lia | intros m []].
  - destruct (sendDataToWorker_capture_failure (E:=E) DETECT_FACE worker capture threshold w
                err Hgrab) as [_ Hevents].
    cbv zeta. rewrite Hevents. cbn. split; [lia | intros m []].
Qed.

(** Without a frame (no capture, or a capture that throws) the result is
    [false], nothing is posted or closed and the canvas is not touched; the
    failed capture is the only thing logged. *)
Theorem sendDataToWorker_without_frame (worker : Worker)
    (imageCapture : Nullable ImageCapture) (threshold : option float) (w : World) :
  (forall capture bitmap,
     imageCapture = object capture -> ends (grabFrame capture) <> Returned bitmap) ->
  let r := dispatch worker imageCapture threshold w in
  outcome r = Returned false
  /\ posted_messages (events r) = []
  /\ closed_bitmaps (events r) = []
  /\ canvas (world r) = canvas w
  /\ warnings (events r)
     = match imageCapture with
       | object capture =>
           match ends (grabFrame capture) with
           | Thrown err => [[LogError err]]
           | Returned _ => []
           end
       | _ => []
       end.
Proof.
  intros Hnone.
  destruct imageCapture as [| | capture]; [repeat split | repeat split |].
  destruct capture as [[[bitmap | err] waited]].
  - destruct (Hnone _ bitmap eq_refl eq_refl).
  - destruct w as [time offscreen cv ctx]. lazy. repeat split.
Qed.

(** The result is [true] exactly when a frame was grabbed and the worker
    took the request. *)
Theorem sendDataToWorker_true_iff_sent (worker : Worker)
    (imageCapture : Nullable ImageCapture) (threshold : option float) (w : World) :
  canvas_ready w ->
  outcome (dispatch worker imageCapture threshold w) = Returned true
  <-> exists capture bitmap,
        imageCapture = object capture
        /\ ends (grabFrame capture) = Returned bitmap
        /\ ends (postMessage worker (detection_request DETECT_FACE bitmap threshold w))
           = Returned tt.
Proof.
  intros Hready. split.
  - destruct imageCapture as [| | capture]; [discriminate | discriminate |].
    destruct (ends (grabFrame capture)) as [bitmap | err] eqn:Hgrab.
    + rewrite (sendDataToWorker_grabbed_run worker capture threshold w bitmap Hgrab Hready).
      cbn. destruct (ends (postMessage worker _)) as [[] | err] eqn:Hpost; [| discriminate].
      intros _. exists capture, bitmap. repeat split; assumption.
    + destruct (sendDataToWorker_capture_failure (E:=E) DETECT_FACE worker capture threshold w
                  err Hgrab) as [H _].
      congruence.
  - intros (capture & bitmap & -> & Hgrab & Hpost).
    rewrite (sendDataToWorker_grabbed_run worker capture threshold w bitmap Hgrab Hready).
    cbn. now rewrite Hpost.
Qed.

(** On the fallback path with a 2D context the shared canvas is sized to
    the frame and holds that frame only: the pixels sent and the canvas
    left behind do not depend on what the canvas held before. *)
Theorem sendDataToWorker_fallback_overwrites_canvas (worker : Worker)
    (capture : ImageCapture) (threshold : option float) (w : World)
    (before : HTMLCanvasElement) (ctx : CanvasRenderingContext2D) (bitmap : ImageBitmap) :
  OffscreenCanvas w = false -> canvas w = Some before -> context w = object ctx ->
  ends (grabFrame capture) = Returned bitmap ->
  let r := dispatch worker (object capture) threshold w in
  posted_messages (events r)
  = [{| msg_type := DETECT_FACE;
        msg_image := image_data {| imagedata_width := bitmap_width bitmap;
                                   imagedata_height := bitmap_height bitmap;
                                   imagedata_drawn := [bitmap] |};
        msg_threshold := default 10%float threshold |}]
  /\ canvas (world r)
     = Some {| canvas_width := Npos (bitmap_width bitmap);
               canvas_height := Npos (bitmap_height bitmap);
               canvas_drawn := [bitmap] |}.
Proof.
  intros Hoff Hcanvas Hctx Hgrab.
  assert (Hready : canvas_ready w) by (right; rewrite Hcanvas; eauto).
  cbv zeta.
  rewrite (sendDataToWorker_grabbed_run worker capture threshold w bitmap Hgrab Hready).
  unfold detection_request, sampled_image, sampled_world. cbn.
  rewrite Hoff, Hcanvas, Hctx. cbn.
  destruct (ends (postMessage worker _)); split; reflexivity.
Qed.

(** Two samples in a row, with a worker that takes every request: each
    request is the one for its own frame, each frame is closed once, in
    order, and the second result is [true]. *)
Theorem sendDataToWorker_twice (worker : Worker) (first second : ImageCapture)
    (threshold : option float) (w : World) (bitmap1 bitmap2 : ImageBitmap) :
  canvas_ready w ->
  ends (grabFrame first) = Returned bitmap1 ->
  ends (grabFrame second) = Returned bitmap2 ->
  (forall message, ends (postMessage worker message) = Returned tt) ->
  let r := (dispatch worker (object first) threshold ;;
            dispatch worker (object second) threshold) w in
  outcome r = Returned true
  /\ posted_messages (events r)
     = [detection_request DETECT_FACE bitmap1 threshold w;
        detection_request DETECT_FACE bitmap2 threshold w]
  /\ closed_bitmaps (events r) = [bitmap1; bitmap2].
Proof.
  intros Hready Hgrab1 Hgrab2 Hpost r. subst r. unfold bind.
  rewrite (sendDataToWorker_grabbed_run worker first threshold w bitmap1 Hgrab1 Hready).
  rewrite Hpost. cbn [outcome events world].
  match goal with
  | |- context [dispatch worker (object second) threshold ?w1] =>
      destruct (sampled_world_platform bitmap1 (elapsed (grabFrame first))
                  (elapsed (postMessage worker
                              (detection_request DETECT_FACE bitmap1 threshold w))) w)
        as (Hoff & Hctx & Hready1);
      rewrite (sendDataToWorker_grabbed_run worker second threshold w1 bitmap2 Hgrab2
                 (Hready1 Hready));
      rewrite (detection_request_platform bitmap2 threshold w1 w Hoff Hctx)
  end.
  rewrite Hpost. cbn. repeat split; reflexivity.
Qed.

End DispatchEdges.

Lemma sendDataToWorker_posts_grabbed_frame_witness :
  exists capture bitmap,
    object sample_capture = object capture
    /\ ends (grabFrame capture) = Returned bitmap
    /\ detection_request "detect-face" sample_bitmap (Some 0%float) (module_init true None 0)
       = detection_request "detect-face" bitmap (Some 0%float) (module_init true None 0).
Proof.
  destruct (sendDataToWorker_posts_grabbed_frame (E:=SampleEntry) "detect-face"
              accepting_worker (object sample_capture) (Some 0%float)
              (module_init true None 0)) as [_ H].
  apply H. left. reflexivity.
Defined.

Lemma sendDataToWorker_without_frame_witness :
  outcome (sendDataToWorker (E:=SampleEntry) "detect-face" accepting_worker
             (object {| grabFrame := {| ends := Thrown NetworkError; elapsed := 2 |} |})
             None (module_init false None 0))
  = Returned false.
Proof.
  apply (sendDataToWorker_without_frame (E:=SampleEntry) "detect-face" accepting_worker
           (object {| grabFrame := {| ends := Thrown NetworkError; elapsed := 2 |} |})
           None (module_init false None 0)).
  intros capture bitmap Heq. injection Heq as <-. discriminate.
Defined.

Lemma sendDataToWorker_true_iff_sent_witness :
  outcome (sendDataToWorker (E:=SampleEntry) "detect-face" accepting_worker
             (object sample_capture) None (module_init false (Some Context2D) 0))
  = Returned true.
Proof.
  apply (sendDataToWorker_true_iff_sent (E:=SampleEntry) "detect-face" accepting_worker
           (object sample_capture) None (module_init false (Some Context2D) 0)).
  - right. cbn. eauto.
  - exists sample_capture, sample_bitmap. repeat split; reflexivity.
Defined.

Lemma sendDataToWorker_fallback_overwrites_canvas_witness :
  let stale := {| canvas_width := 1280; canvas_height := 720;
                  canvas_drawn := [{| bitmap_width := 1280; bitmap_height := 720;
                                      bitmap_frame := 6 |}] |} in
  let w := {| clock := 0; OffscreenCanvas := false; canvas := Some stale;
              context := object Context2D |} in
  canvas (world (sendDataToWorker (E:=SampleEntry) "detect-face" accepting_worker
                   (object sample_capture) None w))
  = Some {| canvas_width := 640; canvas_height := 480; canvas_drawn := [sample_bitmap] |}.
Proof.
  intros stale w.
  apply (sendDataToWorker_fallback_overwrites_canvas (E:=SampleEntry) "detect-face"
           accepting_worker sample_capture None w stale Context2D sample_bitmap);
    reflexivity.
Defined.

Lemma sendDataToWorker_twice_witness :
  let again := {| grabFrame := {| ends := Returned {| bitmap_width := 320;
                                                      bitmap_height := 240;
                                                      bitmap_frame := 8 |};
                                  elapsed := 3 |} |} in
  closed_bitmaps
    (events ((sendDataToWorker (E:=SampleEntry) "detect-face" accepting_worker
                (object sample_capture) None ;;
              sendDataToWorker "detect-face" accepting_worker (object again) None)
               (module_init false (Some Context2D) 0)))
  = [sample_bitmap; {| bitmap_width := 320; bitmap_height := 240; bitmap_frame := 8 |}].
Proof.
  intros again.
  apply (sendDataToWorker_twice (E:=SampleEntry) "detect-face" accepting_worker
           sample_capture again None (module_init false (Some Context2D) 0)).
  - right. cbn. eauto.
  - reflexivity.
  - reflexivity.
  - intros message. reflexivity.
Defined.

(** ** Further properties of the broadcasts *)

Section BroadcastEdges.

Context {E : Type}.
Variable FACE_BOX_EVENT_TYPE : string.

(** A broadcast whose send primitive returns makes that one call and logs
    nothing: the peer messages go to every participant (the empty target)
    with their type tag, the server report goes to [sendFaceLandmarks]. *)
Theorem broadcasts_delivered (c : JitsiConference) (faceExpression : string)
    (duration : float) (faceBox : FaceBox) (w : World) :
  let expression := FaceLandmarkMessage "face_landmark" faceExpression duration in
  let box := FaceBoxMessage FACE_BOX_EVENT_TYPE faceBox in
  let report := {| fl_faceExpression := faceExpression; fl_duration := duration |} in
  (forall send, sendEndpointMessage c = Some send ->
     (ends (send "" expression) = Returned tt ->
      events (sendFaceExpressionToParticipants (E:=E) (object c) faceExpression duration w)
      = [conference_sendEndpointMessage "" expression])
     /\ (ends (send "" box) = Returned tt ->
         events (sendFaceBoxToParticipants (E:=E) FACE_BOX_EVENT_TYPE (object c) faceBox w)
         = [conference_sendEndpointMessage "" box]))
  /\ (forall send, sendFaceLandmarks c = Some send ->
      ends (send report) = Returned tt ->
      events (sendFaceExpressionToServer (E:=E) (object c) faceExpression duration w)
      = [conference_sendFaceLandmarks report]).
Proof.
  intros expression box report. split.
  - intros send Hsend. split; intros Hret.
    + unfold sendFaceExpressionToParticipants, conference_call_sendEndpointMessage.
      rewrite Hsend. run_effects. fold expression. rewrite Hret. reflexivity.
    + unfold sendFaceBoxToParticipants, conference_call_sendEndpointMessage.
      rewrite Hsend. run_effects. fold box. rewrite Hret. reflexivity.
  - intros send Hsend Hret.
    unfold sendFaceExpressionToServer, conference_call_sendFaceLandmarks.
    rewrite Hsend. run_effects. fold report. rewrite Hret. reflexivity.
Qed.

(** Without a conference ([null] or [undefined]), or with one that lacks
    the primitive the broadcast uses, whatever else the conference offers,
    a broadcast calls nothing, logs its one warning with the [TypeError] of
    the failed call, returns and changes nothing: the peer broadcasts need
    [sendEndpointMessage], the server report needs [sendFaceLandmarks]. *)
Theorem broadcasts_without_primitive (conference : Nullable JitsiConference)
    (faceExpression : string) (duration : float) (faceBox : FaceBox) (w : World) :
  let quiet (text : string) (r : Run E unit) :=
    outcome r = Returned tt
    /\ sent_to_conference (events r) = []
    /\ (exists err, exn_name err = "TypeError"
                    /\ events r = [logger_warn [LogString text; LogError err]])
    /\ world r = w in
  ((forall c, conference = object c -> sendEndpointMessage c = None) ->
   quiet "Could not broadcast the face expression to the other participants"
         (sendFaceExpressionToParticipants conference faceExpression duration w)
   /\ quiet "Could not broadcast the face box to the other participants"
            (sendFaceBoxToParticipants FACE_BOX_EVENT_TYPE conference faceBox w))
  /\ ((forall c, conference = object c -> sendFaceLandmarks c = None) ->
      quiet "Could not send the face expression to xmpp server"
            (sendFaceExpressionToServer conference faceExpression duration w)).
Proof.
  intros quiet. subst quiet.
  unfold sendFaceExpressionToParticipants, sendFaceBoxToParticipants,
    sendFaceExpressionToServer, conference_call_sendEndpointMessage,
    conference_call_sendFaceLandmarks.
  split.
  - intros Hmessage. destruct conference as [| | c].
    + cbn. repeat split; eexists; (split; [| reflexivity]); reflexivity.
    + cbn. repeat split; eexists; (split; [| reflexivity]); reflexivity.
    + rewrite (Hmessage c eq_refl). cbn. repeat split; eexists; (split; [| reflexivity]); reflexivity.
  - intros Hreport. destruct conference as [| | c].
    + cbn. repeat split; eexists; (split; [| reflexivity]); reflexivity.
    + cbn. repeat split; eexists; (split; [| reflexivity]); reflexivity.
    + rewrite (Hreport c eq_refl). cbn. repeat split; eexists; (split; [| reflexivity]); reflexivity.
Qed.

(** Every broadcast calls the conference at most once and logs at most one
    warning and no error; it never fails silently: when nothing was logged,
    the conference was called. *)
Theorem broadcasts_once (conference : Nullable JitsiConference)
    (faceExpression : string) (duration : float) (faceBox : FaceBox) (w : World) :
  let once (r : Run E unit) :=
    (length (sent_to_conference (events r)) <= 1)%nat
    /\ (length (warnings (events r)) <= 1)%nat
    /\ errors (events r) = []
    /\ (warnings (events r) = [] -> length (sent_to_conference (events r)) = 1%nat) in
  once (sendFaceExpressionToParticipants conference faceExpression duration w)
  /\ once (sendFaceBoxToParticipants FACE_BOX_EVENT_TYPE conference faceBox w)
  /\ once (sendFaceExpressionToServer conference faceExpression duration w).
Proof.
  intros once. subst once.
  unfold sendFaceExpressionToParticipants, sendFaceBoxToParticipants,
    sendFaceExpressionToServer, conference_call_sendEndpointMessage,
    conference_call_sendFaceLandmarks.
  destruct conference as [| | c]; cbn;
    [repeat split; (lia || discriminate) | repeat split; (lia || discriminate) |].
  run_effects.
  destruct (sendEndpointMessage c) as [send |], (sendFaceLandmarks c) as [report |]; cbn;
    repeat match goal with
           | |- context [ends ?reply] => destruct (ends reply); cbn
           end;
    repeat split; (lia || discriminate).
Qed.

End BroadcastEdges.

Lemma broadcasts_delivered_witness :
  let c := {| sessionId := None;
              sendEndpointMessage := Some (fun _ _ => {| ends := Returned tt; elapsed := 1 |});
              sendFaceLandmarks := None |} in
  events (sendFaceBoxToParticipants (E:=SampleEntry) "face-box" (object c) sample_box
            (module_init true None 0))
  = [conference_sendEndpointMessage "" (FaceBoxMessage "face-box" sample_box)].
Proof.
  intros c.
  destruct (broadcasts_delivered (E:=SampleEntry) "face-box" c "happy" 2 sample_box
              (module_init true None 0)) as [H _].
  apply (H (fun _ _ => {| ends := Returned tt; elapsed := 1 |})); reflexivity.
Defined.

Lemma broadcasts_without_primitive_witness :
  let peers_only := {| sessionId := None;
                       sendEndpointMessage :=
                         Some (fun _ _ => {| ends := Returned tt; elapsed := 1 |});
                       sendFaceLandmarks := None |} in
  let w := module_init true None 0 in
  sent_to_conference
    (events (sendFaceExpressionToServer (E:=SampleEntry) (object peers_only) "happy" 2 w))
  = []
  /\ outcome (sendFaceExpressionToServer (E:=SampleEntry) (object peers_only) "happy" 2 w)
     = Returned tt
  /\ sent_to_conference
       (events (sendFaceBoxToParticipants (E:=SampleEntry) "face-box" null sample_box w))
     = [].
Proof.
  intros peers_only w.
  destruct (broadcasts_without_primitive (E:=SampleEntry) "face-box" (object peers_only)
              "happy" 2 sample_box w) as [_ Hserver].
  destruct (broadcasts_without_primitive (E:=SampleEntry) "face-box" null
              "happy" 2 sample_box w) as [Hpeers _].
  destruct Hserver as (Hreturned & Hnone & _).
  { intros c Heq. injection Heq as <-. reflexivity. }
  destruct Hpeers as (_ & (_ & Hquiet & _)).
  { intros c Heq. discriminate. }
  split; [exact Hnone | split; [exact Hreturned | exact Hquiet]].
Defined.

Lemma broadcasts_once_witness :
  length (sent_to_conference
            (events (sendFaceExpressionToParticipants (E:=SampleEntry)
                       (object {| sessionId := None;
                                  sendEndpointMessage :=
                                    Some (fun _ _ => {| ends := Returned tt; elapsed := 1 |});
                                  sendFaceLandmarks := None |})
                       "happy" 2 (module_init true None 0))))
  = 1%nat.
Proof.
  destruct (broadcasts_once (E:=SampleEntry) "face-box"
              (object {| sessionId := None;
                         sendEndpointMessage :=
                           Some (fun _ _ => {| ends := Returned tt; elapsed := 1 |});
                         sendFaceLandmarks := None |})
              "happy" 2 sample_box (module_init true None 0)) as ((_ & _ & _ & H) & _).
  apply H. reflexivity.
Defined.

(** ** Further properties of the webhook submission *)

Section WebhookEdges.

Context {E : Type}.
Variable getLocalParticipant : IState E -> option ILocalParticipant.
Variable extractFqnFromPath : unit -> string.
Variable fetch : string -> RequestInit E -> Reply Response.

Local Abbreviation webhook :=
  (sendFaceExpressionsWebhook getLocalParticipant extractFqnFromPath fetch).

(** How a run of the webhook went, in the three cases of the source. *)
Lemma webhook_cases (state : IState E) (w : World) :
  (faceExpressionsBuffer (features_face_landmarks state) = []
   /\ webhook state w = {| outcome := Returned false; events := []; world := w |})
  \/ (faceExpressionsBuffer (features_face_landmarks state) <> []
      /\ ToBoolean (webhookProxyUrl (features_base_config state)) = false
      /\ webhook state w = {| outcome := Returned false; events := [Date_now]; world := w |})
  \/ (exists base,
        faceExpressionsBuffer (features_face_landmarks state) <> []
        /\ webhookProxyUrl (features_base_config state) = Some base
        /\ base <> ""
        /\ requests (events (webhook state w))
           = [(base +:+ "/emotions",
               webhook_request getLocalParticipant extractFqnFromPath state (clock w))]
        /\ match ends (fetch (base +:+ "/emotions")
                         (webhook_request getLocalParticipant extractFqnFromPath state
                            (clock w))) with
           | Returned res =>
               outcome (webhook state w) = Returned (ok res)
               /\ errors (events (webhook state w))
                  = (if ok res then []
                     else [[LogString "Status error:"; LogNumber (status res)]])
           | Thrown err =>
               outcome (webhook state w) = Returned false
               /\ errors (events (webhook state w))
                  = [[LogString "Could not send request"; LogError err]]
           end
        /\ warnings (events (webhook state w)) = []
        /\ canvas (world (webhook state w)) = canvas w).
Proof.
  destruct (faceExpressionsBuffer (features_face_landmarks state)) as [| e buffer] eqn:Hbuf.
  - left. split; [reflexivity |]. now apply webhook_empty_buffer.
  - assert (Hne : faceExpressionsBuffer (features_face_landmarks state) <> [])
      by (rewrite Hbuf; discriminate).
    rewrite <- Hbuf.
    destruct (ToBoolean (webhookProxyUrl (features_base_config state))) eqn:Hurl.
    + right. right.
      destruct (webhookProxyUrl (features_base_config state)) as [base |] eqn:Hb;
        [| discriminate].
      exists base. cbn in Hurl.
      rewrite (webhook_sent getLocalParticipant extractFqnFromPath fetch state w base
                 Hne Hb Hurl).
      cbn.
      split; [assumption | split; [reflexivity | split; [now destruct base |]]].
      destruct (ends (fetch _ _)) as [res | err]; [destruct (ok res) |]; cbn;
        repeat split.
    + right. left. split; [assumption | split; [reflexivity |]].
      now apply webhook_no_url.
Qed.

(** The result of the webhook is [true] only after a delivery: the buffer
    was not empty, a URL was configured, the one request went to
    [<url>/emotions] with the buffer in its body, and it was answered with a
    success status; nothing was logged. *)
Theorem webhook_true_only_after_delivery (state : IState E) (w : World) :
  outcome (webhook state w) = Returned true ->
  exists base init content res,
    webhookProxyUrl (features_base_config state) = Some base
    /\ faceExpressionsBuffer (features_face_landmarks state) <> []
    /\ events (webhook state w) = [Date_now; window_fetch (base +:+ "/emotions") init]
    /\ method init = "POST"
    /\ body init = JSON_stringify content
    /\ emotions content = faceExpressionsBuffer (features_face_landmarks state)
    /\ ends (fetch (base +:+ "/emotions") init) = Returned res
    /\ (200 <= status res <= 299)%Z.
Proof.
  intros Htrue.
  destruct (faceExpressionsBuffer (features_face_landmarks state)) as [| e buffer] eqn:Hbuf.
  { rewrite webhook_empty_buffer in Htrue by assumption. discriminate. }
  assert (Hne : faceExpressionsBuffer (features_face_landmarks state) <> [])
    by (rewrite Hbuf; discriminate).
  destruct (ToBoolean (webhookProxyUrl (features_base_config state))) eqn:Hurl.
  - destruct (webhookProxyUrl (features_base_config state)) as [base |] eqn:Hb;
      [| discriminate].
    cbn in Hurl.
    pose proof (webhook_sent getLocalParticipant extractFqnFromPath fetch state w base
                  Hne Hb Hurl) as Hrun.
    cbv zeta in Hrun. rewrite Hrun in Htrue |- *. cbn in Htrue |- *.
    destruct (ends (fetch _ _)) as [res | err] eqn:Hreply; [| discriminate].
    injection Htrue as Hok. rewrite Hok.
    exists base. do 2 eexists. exists res.
    split; [reflexivity | split; [discriminate | split; [reflexivity |]]].
    split; [reflexivity | split; [reflexivity | split; [cbn; now rewrite Hbuf |]]].
    split; [exact Hreply |].
    unfold ok in Hok. apply andb_true_iff in Hok. rewrite !Z.leb_le in Hok. exact Hok.
  - rewrite webhook_no_url in Htrue by assumption. discriminate.
Qed.

(** The webhook sends at most one request and writes at most one log
    entry, an error, and only for a request that failed: an empty buffer
    and a missing URL are skipped without a trace in the log. *)
Theorem webhook_logs_failed_requests_only (state : IState E) (w : World) :
  (length (requests (events (webhook state w))) <= 1)%nat
  /\ warnings (events (webhook state w)) = []
  /\ (length (errors (events (webhook state w))) <= 1)%nat
  /\ (errors (events (webhook state w)) <> [] ->
      outcome (webhook state w) = Returned false
      /\ length (requests (events (webhook state w))) = 1%nat).
Proof.
  destruct (webhook_cases state w)
    as [[_ Hrun] | [(_ & _ & Hrun) | (base & _ & _ & _ & Hreq & Hreply & Hwarn & _)]].
  - rewrite Hrun. cbn. repeat split; (lia || congruence).
  - rewrite Hrun. cbn. repeat split; (lia || congruence).
  - rewrite Hreq, Hwarn. cbn.
    destruct (ends (fetch _ _)) as [res | err].
    + destruct Hreply as [-> ->]. destruct (ok res); cbn; repeat split; (lia || congruence).
    + destruct Hreply as [-> ->]. cbn. repeat split; lia.
Qed.

End WebhookEdges.

Lemma webhook_true_only_after_delivery_witness :
  exists base init content res,
    webhookProxyUrl (features_base_config (sample_state 1000)) = Some base
    /\ faceExpressionsBuffer (features_face_landmarks (sample_state 1000)) <> []
    /\ events (sendFaceExpressionsWebhook no_participant sample_fqn (answering_fetch 204)
                 (sample_state 1000) (module_init true None 0))
       = [Date_now; window_fetch (base +:+ "/emotions") init]
    /\ method init = "POST"
    /\ body init = JSON_stringify content
    /\ emotions content = faceExpressionsBuffer (features_face_landmarks (sample_state 1000))
    /\ ends (answering_fetch 204 (base +:+ "/emotions") init) = Returned res
    /\ (200 <= status res <= 299)%Z.
Proof.
  apply (webhook_true_only_after_delivery no_participant sample_fqn (answering_fetch 204)
           (sample_state 1000) (module_init true None 0)).
  reflexivity.
Defined.

Lemma webhook_logs_failed_requests_only_witness :
  outcome (sendFaceExpressionsWebhook no_participant sample_fqn unreachable_fetch
             (sample_state 1000) (module_init true None 0))
  = Returned false.
Proof.
  destruct (webhook_logs_failed_requests_only no_participant sample_fqn unreachable_fetch
              (sample_state 1000) (module_init true None 0)) as (_ & _ & _ & H).
  apply H. discriminate.
Defined.

(** ** Further properties of the selectors *)

Section SelectorEdges.

Context {E : Type}.
Variable SEND_IMAGE_INTERVAL_MS : float.

(** The detection interval is the default unless a capture interval is
    configured and truthy: a missing [faceLandmarks] object, a missing
    [captureInterval], and the intervals [0], [-0] and [NaN] all give the
    default; any other configured number is returned as it is. *)
Theorem getDetectionInterval_default (state : IState E) :
  (faceLandmarks (features_base_config state) = None ->
   getDetectionInterval SEND_IMAGE_INTERVAL_MS state = SEND_IMAGE_INTERVAL_MS)
  /\ (forall config, faceLandmarks (features_base_config state) = Some config ->
      captureInterval config = None
      \/ captureInterval config = Some 0%float
      \/ captureInterval config = Some (-0)%float
      \/ captureInterval config = Some nan ->
      getDetectionInterval SEND_IMAGE_INTERVAL_MS state = SEND_IMAGE_INTERVAL_MS)
  /\ (getDetectionInterval SEND_IMAGE_INTERVAL_MS state = SEND_IMAGE_INTERVAL_MS
      \/ exists config,
           faceLandmarks (features_base_config state) = Some config
           /\ captureInterval config
              = Some (getDetectionInterval SEND_IMAGE_INTERVAL_MS state)).
Proof.
  rewrite getDetectionInterval_eq.
  destruct (faceLandmarks (features_base_config state)) as [config |]; cbn.
  - split; [discriminate | split].
    + intros config' Heq. injection Heq as <-.
      intros [-> | [-> | [-> | ->]]]; reflexivity.
    + destruct (captureInterval config) as [c |] eqn:Hc; cbn; [| left; reflexivity].
      unfold or_else. destruct (ToBoolean c); [right | left; reflexivity].
      exists config. split; [reflexivity | exact Hc].
  - split; [reflexivity | split; [discriminate | left; reflexivity]].
Qed.

(** The duration of an expression follows the configured interval when
    there is a truthy one, also below the default, and the default
    otherwise. *)
Theorem getFaceExpressionDuration_interval (state : IState E) (count : float) :
  (forall c, faceLandmarks (features_base_config state) ≫= captureInterval = Some c ->
     ToBoolean c = true ->
     getFaceExpressionDuration SEND_IMAGE_INTERVAL_MS state count
     = (count * (c / 1000))%float)
  /\ (ToBoolean (faceLandmarks (features_base_config state) ≫= captureInterval) = false ->
      getFaceExpressionDuration SEND_IMAGE_INTERVAL_MS state count
      = (count * (SEND_IMAGE_INTERVAL_MS / 1000))%float).
Proof.
  unfold getFaceExpressionDuration. rewrite getDetectionInterval_eq.
  destruct (faceLandmarks (features_base_config state) ≫= captureInterval) as [c |];
    cbn; split.
  - intros c' Heq Ht. injection Heq as <-. unfold or_else. now rewrite Ht.
  - intros Hf. unfold or_else. cbn in Hf. now rewrite Hf.
  - discriminate.
  - reflexivity.
Qed.

End SelectorEdges.

Lemma getDetectionInterval_default_witness :
  getDetectionInterval 1000
    (sample_state_with None None [] 0 : IState SampleEntry)
  = 1000%float.
Proof.
  destruct (getDetectionInterval_default 1000
              (sample_state_with None None [] 0 : IState SampleEntry)) as (_ & H & _).
  apply (H {| captureInterval := Some 0%float |}); [reflexivity |].
  right. left. reflexivity.
Defined.

Lemma getFaceExpressionDuration_interval_witness :
  getFaceExpressionDuration 1000 (sample_state 500) 4 = (4 * (500 / 1000))%float
  /\ getFaceExpressionDuration 1000 (sample_state 0) 4 = (4 * (1000 / 1000))%float.
Proof.
  split.
  - destruct (getFaceExpressionDuration_interval 1000 (sample_state 500) 4) as [H _].
    apply H; reflexivity.
  - destruct (getFaceExpressionDuration_interval 1000 (sample_state 0) 4) as [_ H].
    apply H. reflexivity.
Defined.

(** ** Properties of the notifications container *)

(** A prop of an element is the attribute of that name, unless the name is
    one of React's own. *)
Lemma element_props_of_lookup {A} (attributes : gmap string A) (name : string) :
  NotificationsContainer.element_props_of attributes !! name
  = if bool_decide (name ∈ NotificationsContainer.reserved_props) then None else attributes !! name.
Proof.
  unfold NotificationsContainer.element_props_of, NotificationsContainer.reserved_props. cbn.
  destruct (decide (name = "key")) as [-> | Hkey]; [now rewrite lookup_delete_eq |].
  rewrite lookup_delete_ne by congruence.
  destruct (decide (name = "ref")) as [-> | Href]; [now rewrite lookup_delete_eq |].
  rewrite lookup_delete_ne by congruence.
  destruct (decide (name = "__self")) as [-> | Hself]; [now rewrite lookup_delete_eq |].
  rewrite lookup_delete_ne by congruence.
  destruct (decide (name = "__source")) as [-> | Hsource]; [now rewrite lookup_delete_eq |].
  rewrite lookup_delete_ne by congruence.
  rewrite bool_decide_eq_false_2; [reflexivity |].
  rewrite !elem_of_cons, elem_of_nil. tauto.
Qed.

Lemma element_props_of_own {A} (attributes : gmap string A) (name : string) :
  name ∉ NotificationsContainer.reserved_props -> NotificationsContainer.element_props_of attributes !! name = attributes !! name.
Proof.
  intros H. rewrite element_props_of_lookup. now rewrite bool_decide_eq_false_2.
Qed.

Lemma element_props_of_reserved {A} (attributes : gmap string A) (name : string) :
  name ∈ NotificationsContainer.reserved_props -> NotificationsContainer.element_props_of attributes !! name = None.
Proof.
  intros H. rewrite element_props_of_lookup. now rewrite bool_decide_eq_true_2.
Qed.

(** A name written out is not one of React's own. *)
Ltac not_reserved :=
  unfold NotificationsContainer.reserved_props; rewrite !elem_of_cons, elem_of_nil;
  intros [H | [H | [H | [H | []]]]]; discriminate.

Section NotificationsContainerProperties.

Import NotificationsContainer.

Context {V Action : Type}.
Variable hideNotification : string -> Action.
Variable areThereNotifications : IState V -> bool.
Variable clsx : string -> list (string * option bool) -> string.

(** Dismissing a notification always ends with one [dispatch] of
    [hideNotification(uid)], whose outcome is the outcome of the call; a
    timer stored for the uid with a truthy handle is cleared first and
    forgotten; the timers of other notifications are kept, and none is
    added. *)
Theorem onDismissed_clears_then_dispatches (dispatch_prop : Action -> Outcome unit)
    (uid : string) (timeouts : gmap string float) :
  let r := _onDismissed hideNotification dispatch_prop uid timeouts in
  dismissal_outcome r = dispatch_prop (hideNotification uid)
  /\ (forall handle, timeouts !! uid = Some handle -> ToBoolean handle = true ->
      dismissal_calls r = [clearTimeout handle; dispatch (hideNotification uid)]
      /\ dismissal_timeouts r !! uid = None)
  /\ (ToBoolean (timeouts !! uid) = false ->
      dismissal_calls r = [dispatch (hideNotification uid)]
      /\ dismissal_timeouts r = timeouts)
  /\ (forall other, other <> uid -> dismissal_timeouts r !! other = timeouts !! other)
  /\ dismissal_timeouts r ⊆ timeouts.
Proof.
  unfold _onDismissed. cbn.
  destruct (timeouts !! uid) as [handle |] eqn:Hget; cbn.
  - destruct (ToBoolean handle) eqn:Ht; cbn.
    + split; [reflexivity | split; [| split; [discriminate | split]]].
      * intros handle' Heq _. injection Heq as <-. split; [reflexivity |].
        apply lookup_delete_eq.
      * intros other Hne. now apply lookup_delete_ne.
      * apply delete_subseteq.
    + split; [reflexivity | split; [| split; [| split]]].
      * intros handle' Heq Ht'. injection Heq as <-. congruence.
      * intros _. split; reflexivity.
      * reflexivity.
      * reflexivity.
  - split; [reflexivity | split; [discriminate | split; [| split]]].
    + intros _. split; reflexivity.
    + reflexivity.
    + reflexivity.
Qed.

(** However often a notification is dismissed, its timer is cleared at
    most once: a second dismissal only dispatches and leaves the timers as
    they are. *)
Theorem onDismissed_again (first_dispatch second_dispatch : Action -> Outcome unit)
    (uid : string) (timeouts : gmap string float) :
  let first := _onDismissed hideNotification first_dispatch uid timeouts in
  let second := _onDismissed hideNotification second_dispatch uid
                  (dismissal_timeouts first) in
  dismissal_calls second = [dispatch (hideNotification uid)]
  /\ dismissal_timeouts second = dismissal_timeouts first.
Proof.
  unfold _onDismissed. cbn.
  destruct (timeouts !! uid) as [handle |] eqn:Hget; cbn.
  - destruct (ToBoolean handle) eqn:Ht; cbn.
    + rewrite lookup_delete_eq. cbn. split; reflexivity.
    + rewrite Hget. cbn. rewrite Ht. cbn. split; reflexivity.
  - rewrite Hget. cbn. split; reflexivity.
Qed.

(** The flags follow the notifications one to one and in order, keyed by
    uid; on each [Notification], the props [id] and [uid] are the
    notification's uid and [onDismissed] is the container's handler,
    whatever the notification's own props say; own props named [key] and
    [ref] are no props of the element, which takes its key and its ref from
    them; every prop of another name that React does not keep for itself is
    the notification's own. *)
Theorem renderFlags_attributes (props : Props V) :
  map key (_renderFlags props) = map uid (_notifications props)
  /\ Forall2
       (fun entry flag =>
          let own := NotificationsContainer.props entry in
          let element := notification flag in
          element_props element !! "id" = Some (uid_prop (uid entry))
          /\ element_props element !! "uid" = Some (uid_prop (uid entry))
          /\ element_props element !! "onDismissed" = Some onDismissed_prop
          /\ element_props element !! "key" = None
          /\ element_props element !! "ref" = None
          /\ element_key element = own_prop <$> own !! "key"
          /\ element_ref element = own_prop <$> own !! "ref"
          /\ forall name,
               name <> "id" -> name <> "uid" -> name <> "onDismissed" ->
               name ∉ reserved_props ->
               element_props element !! name = own_prop <$> own !! name)
       (_notifications props) (_renderFlags props).
Proof.
  unfold _renderFlags. induction (_notifications props) as [| entry rest IH]; cbn.
  - split; [reflexivity | constructor].
  - destruct IH as [IHkeys IHall]. split; [now rewrite IHkeys |].
    constructor; [| exact IHall].
    cbv zeta. unfold createElement. cbn [notification element_props element_key element_ref].
    split; [| split; [| split; [| split; [| split; [| split; [| split]]]]]].
    + rewrite element_props_of_own by not_reserved.
      rewrite lookup_insert_ne by discriminate. rewrite lookup_insert_ne by discriminate.
      apply lookup_insert_eq.
    + rewrite element_props_of_own by not_reserved. apply lookup_insert_eq.
    + rewrite element_props_of_own by not_reserved.
      rewrite lookup_insert_ne by discriminate. apply lookup_insert_eq.
    + apply element_props_of_reserved. unfold reserved_props. repeat constructor.
    + apply element_props_of_reserved. unfold reserved_props. repeat constructor.
    + rewrite !lookup_insert_ne by discriminate. apply lookup_fmap.
    + rewrite !lookup_insert_ne by discriminate. apply lookup_fmap.
    + intros name Hid Huid Hdismiss Hreserved.
      rewrite element_props_of_own by assumption.
      rewrite !lookup_insert_ne by congruence. apply lookup_fmap.
Qed.

(** Connected to the store, the container renders nothing at all for a SIP
    gateway; otherwise it renders its element with one flag per
    notification of the store when [areThereNotifications] holds and with
    no flag when it does not, and dismissal is always allowed. *)
Theorem render_connected (state : IState V) (classes : Classes) (portal : option bool) :
  let props := _mapStateToProps areThereNotifications state classes portal in
  (iAmSipGateway state = Some true -> render clsx props = None)
  /\ (iAmSipGateway state <> Some true ->
      exists tree,
        render clsx props = Some tree
        /\ element_id tree = "notifications-container"
        /\ dismissAllowed (context_value tree) tt = true
        /\ map key (flags tree)
           = if areThereNotifications state then map uid (notifications state) else []).
Proof.
  unfold render, _mapStateToProps. cbn. split.
  - intros ->. reflexivity.
  - intros Hne.
    assert (Hfalse : ToBoolean (iAmSipGateway state) = false).
    { destruct (iAmSipGateway state) as [[|] |]; [congruence | reflexivity | reflexivity]. }
    rewrite Hfalse. eexists. split; [reflexivity |]. cbn.
    split; [reflexivity | split; [reflexivity |]].
    unfold _renderFlags. cbn. rewrite map_map. cbn.
    destruct (areThereNotifications state); reflexivity.
Qed.

End NotificationsContainerProperties.

Lemma onDismissed_clears_then_dispatches_witness :
  NotificationsContainer.dismissal_calls
    (NotificationsContainer._onDismissed sample_hideNotification sample_dispatch "7"
       {["7" := 41%float; "8" := 42%float]})
  = [NotificationsContainer.clearTimeout 41;
     NotificationsContainer.dispatch "HIDE_NOTIFICATION 7"].
Proof.
  destruct (onDismissed_clears_then_dispatches sample_hideNotification sample_dispatch "7"
              {["7" := 41%float; "8" := 42%float]}) as (_ & H & _).
  apply (H 41%float); reflexivity.
Defined.

Lemma renderFlags_attributes_witness :
  let props := NotificationsContainer._mapStateToProps (fun _ => true)
                 (sample_notifications_state None) sample_classes None in
  map NotificationsContainer.key (NotificationsContainer._renderFlags props) = [7%float]
  /\ Forall (fun flag =>
               let element := NotificationsContainer.notification flag in
               NotificationsContainer.element_props element !! "id"
               = Some (NotificationsContainer.uid_prop 7)
               /\ NotificationsContainer.element_props element !! "key" = None
               /\ NotificationsContainer.element_key element
                  = Some (NotificationsContainer.own_prop "k")
               /\ NotificationsContainer.element_props element !! "title"
                  = Some (NotificationsContainer.own_prop "Hello"))
            (NotificationsContainer._renderFlags props).
Proof.
  intros props.
  destruct (renderFlags_attributes props) as [Hkeys Hall]. split; [exact Hkeys |].
  apply Forall2_cons_1 in Hall as [(Hid & _ & _ & Hnokey & _ & Hkey & _ & Hown) _].
  constructor; [| constructor].
  split; [exact Hid | split; [exact Hnokey | split; [exact Hkey |]]].
  cbv zeta in Hown. rewrite Hown; [reflexivity | discriminate .. |].
  unfold NotificationsContainer.reserved_props.
  rewrite !elem_of_cons, elem_of_nil. intros [H | [H | [H | [H | []]]]]; discriminate.
Defined.

Lemma render_connected_witness :
  NotificationsContainer.render sample_clsx
    (NotificationsContainer._mapStateToProps (fun _ => true)
       (sample_notifications_state (Some true)) sample_classes None)
  = None.
Proof.
  destruct (render_connected (fun _ => true) sample_clsx
              (sample_notifications_state (Some true)) sample_classes None) as [H _].
  apply H. reflexivity.
Defined.

(** ** Properties of the grant-moderator dialog *)

Section GrantModeratorDialogProperties.

Import GrantModeratorDialog.

Context {Event Action : Type}.
Variable createRemoteVideoMenuButtonEvent : string -> gmap string string -> Event.
Variable grantModerator : string -> Action.

(** Confirming the dialog reports to analytics first and grants moderator
    rights second, both for the same participant; if the report throws,
    nothing is dispatched; the result is [true] when, and only when, both
    calls return. *)
Theorem onSubmit_reports_then_grants (sendAnalytics_call : Event -> Outcome unit)
    (dispatch_prop : Action -> Outcome unit) (participantID : string) :
  let event := createRemoteVideoMenuButtonEvent "grant.moderator.button"
                 {["participant_id" := participantID]} in
  let r := _onSubmit createRemoteVideoMenuButtonEvent grantModerator sendAnalytics_call
             dispatch_prop participantID in
  (forall err, sendAnalytics_call event = Thrown err ->
     submission_outcome r = Thrown err /\ submission_calls r = [sendAnalytics event])
  /\ (sendAnalytics_call event = Returned tt ->
      submission_calls r = [sendAnalytics event; dispatch (grantModerator participantID)])
  /\ (submission_outcome r = Returned true
      <-> sendAnalytics_call event = Returned tt
          /\ dispatch_prop (grantModerator participantID) = Returned tt)
  /\ submission_outcome r <> Returned false.
Proof.
  intros event r. subst r. unfold _onSubmit. fold event.
  destruct (sendAnalytics_call event) as [[] | err]; cbn.
  - split; [discriminate | split; [reflexivity | split]].
    + destruct (dispatch_prop (grantModerator participantID)) as [[] | err]; cbn;
        split; (tauto || intros; try discriminate).
      destruct H; discriminate.
    + destruct (dispatch_prop (grantModerator participantID)); discriminate.
  - split; [| split; [discriminate | split; [| discriminate]]].
    + intros err' Heq. injection Heq as <-. split; reflexivity.
    + split; [discriminate | intros [? _]; discriminate].
Qed.

End GrantModeratorDialogProperties.

Lemma onSubmit_reports_then_grants_witness :
  GrantModeratorDialog.submission_calls
    (GrantModeratorDialog._onSubmit (fun name attributes => (name, attributes))
       (fun id => "GRANT_MODERATOR " +:+ id)
       (fun _ => Thrown NetworkError) sample_dispatch "abc")
  = [GrantModeratorDialog.sendAnalytics
       ("grant.moderator.button", {["participant_id" := "abc"]})].
Proof.
  destruct (onSubmit_reports_then_grants (fun name attributes => (name, attributes))
              (fun id => "GRANT_MODERATOR " +:+ id)
              (fun _ => Thrown NetworkError) sample_dispatch "abc") as [H _].
  apply (H NetworkError). reflexivity.
Defined.

(** ** Properties of the connection status *)

Section ConnectionStatusProperties.

Import ConnectionStatus.

Variable POOR NON_OPTIMAL GOOD NONE : string.
Variable t : option string -> string.
Variable inherited : string -> bool.

Local Abbreviation component := (ConnectionStatus POOR NON_OPTIMAL GOOD NONE t inherited).
Local Abbreviation type_map := (CONNECTION_TYPE_MAP POOR NON_OPTIMAL GOOD).

(** What the three connection types render, for distinct constants: the
    class of the circle, the icon and the translated text of each. *)
Theorem ConnectionStatus_known_types (details : list string) (showDetails : bool) :
  POOR <> NON_OPTIMAL -> POOR <> GOOD -> NON_OPTIMAL <> GOOD ->
  POOR <> NONE -> NON_OPTIMAL <> NONE -> GOOD <> NONE ->
  let shows (type class : string) (wifi : IconSrc) (label : string) :=
    exists view,
      component {| connectionDetails := details; connectionType := type |} showDetails
      = Returned (Some view)
      /\ circle_className view = "con-status-circle " +:+ class
      /\ circle_icon view = Some wifi
      /\ text view = t (Some label) in
  shows POOR "con-status--poor" IconWifi1Bar "prejoin.connection.poor"
  /\ shows NON_OPTIMAL "con-status--non-optimal" IconWifi2Bars "prejoin.connection.nonOptimal"
  /\ shows GOOD "con-status--good" IconWifi3Bars "prejoin.connection.good".
Proof.
  intros Hpn Hpg Hng Hp Hn Hg shows. subst shows. unfold ConnectionStatus. cbn.
  apply String.eqb_neq in Hp, Hn, Hg. rewrite Hp, Hn, Hg.
  unfold CONNECTION_TYPE_MAP. repeat split.
  - rewrite !lookup_insert_ne by congruence. rewrite lookup_insert_eq.
    eexists. repeat split.
  - rewrite lookup_insert_ne by congruence. rewrite lookup_insert_eq.
    eexists. repeat split.
  - rewrite lookup_insert_eq. eexists. repeat split.
Qed.

(** The type [NONE] renders nothing.  A type that is neither [NONE] nor a
    key of the map nor a name inherited from [Object.prototype] makes the
    render throw; an inherited name renders a circle whose class is
    ["undefined"] and no icon. *)
Theorem ConnectionStatus_other_types (props : Props) (showDetails : bool) :
  (connectionType props = NONE -> component props showDetails = Returned None)
  /\ (connectionType props <> NONE ->
      connectionType props <> POOR -> connectionType props <> NON_OPTIMAL ->
      connectionType props <> GOOD ->
      if inherited (connectionType props)
      then exists view,
             component props showDetails = Returned (Some view)
             /\ circle_className view = "con-status-circle undefined"
             /\ circle_icon view = None
             /\ text view = t None
      else exists err, component props showDetails = Thrown err).
Proof.
  unfold ConnectionStatus. split.
  - intros ->. now rewrite String.eqb_refl.
  - intros Hnone Hpoor Hnon Hgood. apply String.eqb_neq in Hnone. rewrite Hnone.
    unfold CONNECTION_TYPE_MAP. rewrite !lookup_insert_ne by congruence.
    rewrite lookup_empty.
    destruct (inherited (connectionType props)).
    + eexists. repeat split.
    + eexists. reflexivity.
Qed.

(** Showing or hiding the details changes neither whether the component
    renders nor the texts it renders: the details are in the element either
    way, and only the class names and the ARIA flags follow [showDetails],
    the text being hidden from assistive technology exactly while the arrow
    is not pressed. *)
Theorem ConnectionStatus_showDetails (props : Props) (showDetails : bool) :
  match component props showDetails, component props (negb showDetails) with
  | Returned (Some view), Returned (Some other) =>
      details_text view = String.concat " " (map (fun d => t (Some d)) (connectionDetails props))
      /\ details_text other = details_text view
      /\ text other = text view
      /\ circle_className other = circle_className view
      /\ arrow_ariaPressed view = showDetails
      /\ text_ariaHidden view = negb (arrow_ariaPressed view)
      /\ details_className view
         = (if showDetails then "con-status-details con-status-details-visible"
            else "con-status-details con-status-details-hidden")
      /\ arrow_className view
         = (if showDetails then "con-status-arrow con-status-arrow--up"
            else "con-status-arrow")
  | Returned None, Returned None => True
  | Thrown err, Thrown err' => err = err'
  | _, _ => False
  end.
Proof.
  unfold ConnectionStatus.
  destruct (connectionType props =? NONE)%string; [exact I |].
  destruct (type_map !! connectionType props) as [entry |]; cbn.
  - destruct showDetails; repeat split.
  - destruct (inherited (connectionType props)); [| reflexivity].
    destruct showDetails; repeat split.
Qed.


End ConnectionStatusProperties.

Lemma ConnectionStatus_known_types_witness :
  exists view,
    ConnectionStatus.ConnectionStatus "poor" "nonOptimal" "good" "none" sample_translate
      sample_inherited
      {| ConnectionStatus.connectionDetails := ["prejoin.connection.details.audioClipping"];
         ConnectionStatus.connectionType := "nonOptimal" |} false
    = Returned (Some view)
    /\ ConnectionStatus.circle_className view = "con-status-circle con-status--non-optimal"
    /\ ConnectionStatus.circle_icon view = Some ConnectionStatus.IconWifi2Bars
    /\ ConnectionStatus.text view = "prejoin.connection.nonOptimal".
Proof.
  destruct (ConnectionStatus_known_types "poor" "nonOptimal" "good" "none" sample_translate
              sample_inherited ["prejoin.connection.details.audioClipping"] false)
    as (_ & H & _); try discriminate.
  exact H.
Defined.

Lemma ConnectionStatus_other_types_witness :
  exists err,
    ConnectionStatus.ConnectionStatus "poor" "nonOptimal" "good" "none" sample_translate
      sample_inherited
      {| ConnectionStatus.connectionDetails := [];
         ConnectionStatus.connectionType := "excellent" |} true
    = Thrown err.
Proof.
  destruct (ConnectionStatus_other_types "poor" "nonOptimal" "good" "none" sample_translate
              sample_inherited
              {| ConnectionStatus.connectionDetails := [];
                 ConnectionStatus.connectionType := "excellent" |} true) as [_ H].
  apply H; discriminate.
Defined.

